(** * uio_pci_generic: interrupt-vector to eventfd binding

    A shallow embedding of [drivers/uio/uio_pci_generic.c] (the MSI-X
    variant, [CONFIG_PCI_MSI] defined) and the properties of its
    notification registry, its two interrupt handlers and its
    probe / remove life cycle.

    The driver is a sequence of calls into the kernel (PCI core, IRQ core,
    eventfd, UIO core) that mutate shared state.  The embedding threads a
    [world] through a small state-and-fault monad: the world holds the
    device, the driver's per-device object, the IRQ core's table of
    registered actions and the chronological trace of the kernel calls the
    driver has made. *)

From stdpp Require Import gmap list strings.
From Stdlib Require Import ZArith Lia.

Open Scope Z_scope.

(** ** Errno values and interrupt return codes *)

Definition EINVAL : Z := 22.
Definition ENOMEM : Z := 12.
Definition ENODEV : Z := 19.
Definition EFAULT : Z := 14.
Definition ENOSPC : Z := 28.
Definition EOPNOTSUPP : Z := 95.

Inductive irqreturn_t := IRQ_NONE | IRQ_HANDLED.

Definition IRQF_SHARED : Z := 128.
Definition PCI_COMMAND_INTX_DISABLE : Z := 1024.
(** Bit 3 of the status register, [PCI_STATUS_INTERRUPT = 0x08]. *)
Definition PCI_STATUS_INTERRUPT_BIT : Z := 3.

(** ** Data model *)

(** An eventfd context is only ever compared, signalled and released by the
    driver: it is represented by its identity. *)
Inductive eventfd_ctx := Ctx (id : positive).

#[global] Instance eventfd_ctx_eq_dec : EqDecision eventfd_ctx.
Proof. solve_decision. Defined.

(** [struct msix_entry]: [vector] (32 bits, unsigned) is written by the PCI
    core, [entry] (16 bits) by the driver.  The driver carries [vector]
    through an [int] to interfaces that take an [unsigned int], which
    gives the value back unchanged. *)
Record msix_entry := { vector : Z; entry : Z }.

(** [struct uio_msix_info].  [entries] is [None] for a NULL pointer.  The
    two arrays live in one buffer; [evts] is only ever accessed after
    [entries] has been read at the same index. *)
Record uio_msix_info := {
  entries : option (list msix_entry);
  evts : list (option eventfd_ctx);
  nvecs : Z
}.

Inductive uio_handler := Handler_irqhandler.
Inductive uio_release := Release_release.
Inductive uio_ioctl := Ioctl_uio_msi_ioctl.

(** The fields of [struct uio_info] the driver fills in. *)
Record uio_info := {
  name : string;
  version : string;
  info_irq : Z;
  irq_flags : Z;
  handler : option uio_handler;
  info_release : option uio_release;
  ioctl : option uio_ioctl
}.

(** [struct uio_pci_generic_dev]; its [pdev] pointer always designates the
    one device of the world. *)
Record uio_pci_generic_dev := {
  info : uio_info;
  msix_info : uio_msix_info
}.

(** The state of the PCI device as the PCI core sees it. *)
Record pci_dev := {
  irq : Z;                      (* pdev->irq, 0 without a legacy line *)
  enable_cnt : Z;               (* nesting of pci_enable_device *)
  msi_enabled : bool;
  msix_enabled : bool;
  is_busmaster : bool;
  command : Z;                  (* PCI_COMMAND register *)
  status : Z;                   (* PCI_STATUS register *)
  intx_mask_supported : bool;   (* what pci_intx_mask_supported reports *)
  drvdata : bool                (* driver data points at the gdev object *)
}.

(** Calls into the kernel that the driver makes, in the order made;
    [request_irq] is recorded with its result. *)
Inductive event :=
| Ev_eventfd_signal (evt : eventfd_ctx)
| Ev_free_irq (irqn : Z) (dev_id : eventfd_ctx)
| Ev_eventfd_ctx_put (evt : eventfd_ctx)
| Ev_eventfd_ctx_fdget (fd : Z)
| Ev_request_irq (irqn : Z) (dev_id : eventfd_ctx) (err : Z)
| Ev_pci_disable_msi
| Ev_pci_enable_msix_exact (nvec : Z)
| Ev_pci_disable_msix
| Ev_pci_enable_device
| Ev_pci_disable_device
| Ev_pci_clear_master
| Ev_uio_register_device
| Ev_uio_unregister_device
| Ev_kfree_entries
| Ev_kfree_gdev.

#[global] Instance event_eq_dec : EqDecision event.
Proof. solve_decision. Defined.

Record world := {
  w_pdev : pci_dev;
  w_gdev : option uio_pci_generic_dev;   (* None: not allocated / freed *)
  w_irqs : gmap Z eventfd_ctx;           (* irq number -> dev_id of its action *)
  w_uio : bool;                          (* registered with the UIO core *)
  w_trace : list event
}.

(** What the platform answers to the driver's requests. *)
Record platform := {
  plat_enable_device : Z;                 (* result of pci_enable_device *)
  plat_kzalloc_gdev : bool;               (* kzalloc of the gdev object *)
  plat_kzalloc : Z -> bool;               (* kzalloc of [size] bytes *)
  plat_msix_vec_count : Z;                (* pci_msix_vec_count *)
  plat_msix_avail : Z;                    (* vectors the platform can grant *)
  plat_msix_vector : Z -> Z;              (* irq assigned to a table entry *)
  plat_fdget : Z -> option eventfd_ctx;   (* the caller's eventfd table *)
  plat_request_irq : Z -> eventfd_ctx -> Z; (* result of request_irq *)
  plat_uio_register : Z                   (* result of uio_register_device *)
}.

(** ** The monad: state passing with memory faults *)

Inductive fault := NullDeref | OutOfBounds.

Inductive outcome (A : Type) :=
| Ok (a : A) (w : world)
| Oops (f : fault).
Arguments Ok {A} a w.
Arguments Oops {A} f.

Definition M (A : Type) : Type := world -> outcome A.

Definition ret {A} (a : A) : M A := fun w => Ok a w.
Definition bind {A B} (m : M A) (k : A -> M B) : M B :=
  fun w => match m w with Ok a w' => k a w' | Oops f => Oops f end.
Definition fail {A} (f : fault) : M A := fun _ => Oops f.

Declare Scope drv_scope.
Delimit Scope drv_scope with drv.
Notation "x <- m ;; k" := (bind m (fun x => k))
  (at level 100, m at next level, k at level 200, right associativity) : drv_scope.
Notation "m ;; k" := (bind m (fun _ => k))
  (at level 100, k at level 200, right associativity) : drv_scope.
Open Scope drv_scope.

Definition set_pdev (p : pci_dev) (w : world) : world :=
  {| w_pdev := p; w_gdev := w_gdev w; w_irqs := w_irqs w;
     w_uio := w_uio w; w_trace := w_trace w |}.
Definition set_gdev (g : option uio_pci_generic_dev) (w : world) : world :=
  {| w_pdev := w_pdev w; w_gdev := g; w_irqs := w_irqs w;
     w_uio := w_uio w; w_trace := w_trace w |}.
Definition set_irqs (t : gmap Z eventfd_ctx) (w : world) : world :=
  {| w_pdev := w_pdev w; w_gdev := w_gdev w; w_irqs := t;
     w_uio := w_uio w; w_trace := w_trace w |}.
Definition set_uio (b : bool) (w : world) : world :=
  {| w_pdev := w_pdev w; w_gdev := w_gdev w; w_irqs := w_irqs w;
     w_uio := b; w_trace := w_trace w |}.
Definition log (e : event) (w : world) : world :=
  {| w_pdev := w_pdev w; w_gdev := w_gdev w; w_irqs := w_irqs w;
     w_uio := w_uio w; w_trace := w_trace w ++ [e] |}.

Definition modify (f : world -> world) : M unit := fun w => Ok tt (f w).
Definition get_pdev : M pci_dev := fun w => Ok (w_pdev w) w.

(** [gdev->msix_info]: dereferences the driver object. *)
Definition get_msix : M uio_msix_info := fun w =>
  match w_gdev w with
  | Some g => Ok (msix_info g) w
  | None => Oops NullDeref
  end.
Definition put_msix (m : uio_msix_info) : M unit := fun w =>
  match w_gdev w with
  | Some g => Ok tt (set_gdev (Some {| info := info g; msix_info := m |}) w)
  | None => Oops NullDeref
  end.

(** C array indexing with an [int] index: anything outside the array is a
    fault. *)
Definition lookupZ {A} (l : list A) (i : Z) : option A :=
  if i <? 0 then None else l !! Z.to_nat i.

(** [gdev->msix_info.entries[i]] *)
Definition entries_at (i : Z) : M msix_entry :=
  m <- get_msix ;;
  match entries m with
  | None => fail NullDeref
  | Some es =>
      match lookupZ es i with
      | Some e => ret e
      | None => fail OutOfBounds
      end
  end.

(** [gdev->msix_info.evts[i]] *)
Definition evts_at (i : Z) : M (option eventfd_ctx) :=
  m <- get_msix ;;
  match lookupZ (evts m) i with
  | Some e => ret e
  | None => fail OutOfBounds
  end.

(** [gdev->msix_info.evts[i] = v] *)
Definition evts_store (i : Z) (v : option eventfd_ctx) : M unit :=
  m <- get_msix ;;
  match lookupZ (evts m) i with
  | Some _ =>
      put_msix {| entries := entries m;
                  evts := <[Z.to_nat i := v]> (evts m);
                  nvecs := nvecs m |}
  | None => fail OutOfBounds
  end.

(** ** The kernel interfaces the driver calls

    None of these is defined in the driver's file.  Each is a state
    transformer on the world; what the platform decides (allocation
    results, the caller's file descriptors, error codes) is read from the
    [platform] record. *)

Section Driver.

Variable K : platform.

(** [container_of] / [gdev->...]: a use of the driver object. *)
Definition deref_gdev : M uio_pci_generic_dev := fun w =>
  match w_gdev w with
  | Some g => Ok g w
  | None => Oops NullDeref
  end.

(** Modelled from the spec: [eventfd_signal] (fs/eventfd.c) signals the
    handle. *)
Definition eventfd_signal (evt : eventfd_ctx) : M unit :=
  modify (log (Ev_eventfd_signal evt)).

(** Modelled from the spec: the IRQ core's table of actions
    (kernel/irq/manage.c) and what a call does to it.  [free_irq]
    deregisters the interrupt path: the action registered on the line
    under that [dev_id] is removed, so that no future interrupt reaches
    that handle.  A successful [request_irq] registers the interrupt path
    for the line, closed over its [dev_id].  No other call touches the
    table. *)
Definition irq_effect (t : gmap Z eventfd_ctx) (e : event) : gmap Z eventfd_ctx :=
  match e with
  | Ev_free_irq irqn d =>
      match t !! irqn with
      | Some d' => if decide (d' = d) then delete irqn t else t
      | None => t
      end
  | Ev_request_irq irqn d err => if err =? 0 then <[irqn := d]> t else t
  | _ => t
  end.

(** A call into the IRQ core: recorded, and applied to its table. *)
Definition irq_call (e : event) : M unit :=
  modify (fun w => log e (set_irqs (irq_effect (w_irqs w) e) w)).

Definition free_irq (irqn : Z) (dev_id : eventfd_ctx) : M unit :=
  irq_call (Ev_free_irq irqn dev_id).

(** Modelled from the spec: [eventfd_ctx_put] (fs/eventfd.c) releases one
    reference to the handle. *)
Definition eventfd_ctx_put (evt : eventfd_ctx) : M unit :=
  modify (log (Ev_eventfd_ctx_put evt)).

(** Modelled from the spec: [eventfd_ctx_fdget] (fs/eventfd.c) is the
    fallible lookup of an externally supplied identifier; the driver tests
    its result against NULL. *)
Definition eventfd_ctx_fdget (fd : Z) : M (option eventfd_ctx) :=
  modify (log (Ev_eventfd_ctx_fdget fd)) ;;
  ret (plat_fdget K fd).

(** [request_irq] may fail: the platform decides its result. *)
Definition request_irq (irqn : Z) (dev_id : eventfd_ctx) : M Z :=
  let err := plat_request_irq K irqn dev_id in
  irq_call (Ev_request_irq irqn dev_id err) ;;
  ret err.

Definition upd_pdev (f : pci_dev -> pci_dev) : M unit :=
  modify (fun w => set_pdev (f (w_pdev w)) w).

Definition with_msi (b : bool) (p : pci_dev) : pci_dev :=
  {| irq := irq p; enable_cnt := enable_cnt p; msi_enabled := b;
     msix_enabled := msix_enabled p; is_busmaster := is_busmaster p;
     command := command p; status := status p;
     intx_mask_supported := intx_mask_supported p; drvdata := drvdata p |}.
Definition with_msix (b : bool) (p : pci_dev) : pci_dev :=
  {| irq := irq p; enable_cnt := enable_cnt p; msi_enabled := msi_enabled p;
     msix_enabled := b; is_busmaster := is_busmaster p;
     command := command p; status := status p;
     intx_mask_supported := intx_mask_supported p; drvdata := drvdata p |}.
Definition with_busmaster (b : bool) (p : pci_dev) : pci_dev :=
  {| irq := irq p; enable_cnt := enable_cnt p; msi_enabled := msi_enabled p;
     msix_enabled := msix_enabled p; is_busmaster := b;
     command := command p; status := status p;
     intx_mask_supported := intx_mask_supported p; drvdata := drvdata p |}.
Definition with_command (c : Z) (p : pci_dev) : pci_dev :=
  {| irq := irq p; enable_cnt := enable_cnt p; msi_enabled := msi_enabled p;
     msix_enabled := msix_enabled p; is_busmaster := is_busmaster p;
     command := c; status := status p;
     intx_mask_supported := intx_mask_supported p; drvdata := drvdata p |}.
Definition with_enable_cnt (c : Z) (p : pci_dev) : pci_dev :=
  {| irq := irq p; enable_cnt := c; msi_enabled := msi_enabled p;
     msix_enabled := msix_enabled p; is_busmaster := is_busmaster p;
     command := command p; status := status p;
     intx_mask_supported := intx_mask_supported p; drvdata := drvdata p |}.
Definition with_drvdata (b : bool) (p : pci_dev) : pci_dev :=
  {| irq := irq p; enable_cnt := enable_cnt p; msi_enabled := msi_enabled p;
     msix_enabled := msix_enabled p; is_busmaster := is_busmaster p;
     command := command p; status := status p;
     intx_mask_supported := intx_mask_supported p; drvdata := b |}.

(** [pci_disable_msi] (drivers/pci/msi.c) is the teardown of the
    single-message MSI capability, the counterpart of [pci_enable_msi]: it
    clears [msi_enabled] and does nothing to a device on which MSI is not
    enabled.  The vector table is the other capability, MSI-X, which the
    driver enables with [pci_enable_msix_exact] and tears down, in
    [remove], with [pci_disable_msix]. *)
Definition pci_disable_msi : M unit :=
  modify (log Ev_pci_disable_msi) ;;
  upd_pdev (with_msi false).

(** Modelled from the spec: [pci_disable_msix] (drivers/pci/msi.c) tears
    down vector delivery at the hardware level. *)
Definition pci_disable_msix : M unit :=
  modify (log Ev_pci_disable_msix) ;;
  upd_pdev (with_msix false).

(** The platform writes the hardware vector identifier of a table entry. *)
Definition msix_fill (e : msix_entry) : msix_entry :=
  {| vector := plat_msix_vector K (entry e); entry := entry e |}.

(** Modelled from the spec: [pci_enable_msix_exact] (include/linux/pci.h)
    requests exactly [nvec] hardware vectors from the platform.  It is
    all-or-nothing: when the platform can grant fewer than requested the
    call fails and vector delivery stays disabled, nothing being kept.  On
    success vector delivery is enabled as a unit and every entry receives
    its hardware vector identifier.  A request for less than one vector is
    refused. *)
Definition pci_enable_msix_exact (nvec : Z) : M Z :=
  modify (log (Ev_pci_enable_msix_exact nvec)) ;;
  if nvec <? 1 then ret (- EINVAL)
  else if plat_msix_avail K <? nvec then ret (- ENOSPC)
  else
    m <- get_msix ;;
    match entries m with
    | None => fail NullDeref
    | Some es =>
        if Z.of_nat (length es) <? nvec then fail OutOfBounds
        else
          put_msix {| entries := Some ((msix_fill <$> take (Z.to_nat nvec) es)
                                       ++ drop (Z.to_nat nvec) es);
                      evts := evts m; nvecs := nvecs m |} ;;
          upd_pdev (with_msix true) ;;
          ret 0
    end.

(** Modelled from the spec: [pci_clear_master] (drivers/pci/pci.c)
    disables bus-mastering on the device. *)
Definition pci_clear_master : M unit :=
  modify (log Ev_pci_clear_master) ;;
  upd_pdev (with_busmaster false).

(** Modelled from the spec: [pci_check_and_mask_intx] (drivers/pci/pci.c)
    inspects the device's own pending-and-mask registers.  If the device's
    pending bit is not set it reports false and mutates nothing; if it is
    set, it masks further delivery of the interrupt at the device (the
    interrupt-disable bit of the command register) and reports true.  The
    read-modify-write is one step of the model. *)
Definition pci_check_and_mask_intx : M bool := fun w =>
  let p := w_pdev w in
  if Z.testbit (status p) PCI_STATUS_INTERRUPT_BIT
  then Ok true (set_pdev (with_command (Z.lor (command p) PCI_COMMAND_INTX_DISABLE) p) w)
  else Ok false w.

(** Modelled from the spec: [pci_enable_device] (drivers/pci/pci.c) enables
    the device at the bus level, or fails leaving it as it was. *)
Definition pci_enable_device : M Z :=
  modify (log Ev_pci_enable_device) ;;
  let err := plat_enable_device K in
  if err =? 0
  then upd_pdev (fun p => with_enable_cnt (enable_cnt p + 1) p) ;; ret 0
  else ret err.

(** Modelled from the spec: [pci_disable_device] (drivers/pci/pci.c) undoes
    one [pci_enable_device]. *)
Definition pci_disable_device : M unit :=
  modify (log Ev_pci_disable_device) ;;
  upd_pdev (fun p => with_enable_cnt (enable_cnt p - 1) p).

(** Modelled from the spec: [pci_intx_mask_supported] (drivers/pci/pci.c)
    tells whether the device supports independent pending/mask
    inspection. *)
Definition pci_intx_mask_supported (p : pci_dev) : bool :=
  intx_mask_supported p.

(** Modelled from the spec: [uio_register_device] (drivers/uio/uio.c)
    registers the binding with the exposer layer; it may fail. *)
Definition uio_register_device : M Z :=
  modify (log Ev_uio_register_device) ;;
  let err := plat_uio_register K in
  if err =? 0 then modify (set_uio true) ;; ret 0 else ret err.

(** Modelled from the spec: [uio_unregister_device] (drivers/uio/uio.c)
    withdraws the binding from the exposer layer; it reads the [info]
    embedded in the driver object. *)
Definition uio_unregister_device : M unit :=
  _ <- deref_gdev ;;
  modify (log Ev_uio_unregister_device) ;;
  modify (set_uio false).

(** [pci_set_drvdata(pdev, gdev)] *)
Definition pci_set_drvdata : M unit := upd_pdev (with_drvdata true).

(** [pci_get_drvdata]: the pointer stored by [pci_set_drvdata], NULL when
    none was stored. *)
Definition pci_get_drvdata : M bool :=
  p <- get_pdev ;; ret (drvdata p).

(** The IRQ core on an interrupt: it runs the action registered for the
    line, if any, with the [dev_id] it was registered with. *)
Definition generic_handle_irq (hdl : Z -> eventfd_ctx -> M irqreturn_t)
    (irqn : Z) : M irqreturn_t := fun w =>
  match w_irqs w !! irqn with
  | Some dev_id => hdl irqn dev_id w
  | None => Ok IRQ_NONE w
  end.

(** ** The driver *)

(** [uio_msix_handler]: the per-vector interrupt handler; [arg] is the
    eventfd context the action was registered with. *)
Definition uio_msix_handler (irqn : Z) (arg : eventfd_ctx) : M irqreturn_t :=
  let evt := arg in
  eventfd_signal evt ;;
  ret IRQ_HANDLED.

(** [map_msix_eventfd(gdev, fd, vector)] *)
Definition map_msix_eventfd (fd vec : Z) : M Z :=
  (* Passing -1 is used to disable interrupt *)
  if fd <? 0 then
    _ <- deref_gdev ;;
    pci_disable_msi ;;
    ret 0
  else
    m <- get_msix ;;
    if vec >=? nvecs m then ret (- EINVAL)
    else
      e <- entries_at vec ;;
      let irq := vector e in
      evt <- evts_at vec ;;
      match evt with
      | Some evt =>
          free_irq irq evt ;;
          eventfd_ctx_put evt ;;
          evts_store vec None
      | None => ret tt
      end ;;
      evt <- eventfd_ctx_fdget fd ;;
      match evt with
      | None => ret (- EINVAL)
      | Some evt =>
          err <- request_irq irq evt ;;
          if negb (err =? 0) then
            eventfd_ctx_put evt ;;
            ret err
          else
            evts_store vec (Some evt) ;;
            ret 0
      end.

(** [struct uio_msix_data], the argument of the ioctl. *)
Record uio_msix_data := { data_fd : Z; data_vector : Z }.

(** [uio_msi_ioctl(info, cmd, arg)].  [UIO_MSIX_DATA] is the command number
    from the UIO header; [arg] is [None] when [copy_from_user] fails. *)
Definition uio_msi_ioctl (UIO_MSIX_DATA : Z) (cmd : Z)
    (arg : option uio_msix_data) : M Z :=
  if cmd =? UIO_MSIX_DATA then
    match arg with
    | None => ret (- EFAULT)
    | Some data => map_msix_eventfd (data_fd data) (data_vector data)
    end
  else ret (- EOPNOTSUPP).

Definition sizeof_msix_entry : Z := 8.
Definition sizeof_eventfd_ctx_ptr : Z := 8.

(** [entries[i].entry = v]; [entry] is a 16-bit field. *)
Definition entries_store_entry (i v : Z) : M unit :=
  m <- get_msix ;;
  match entries m with
  | None => fail NullDeref
  | Some es =>
      match lookupZ es i with
      | Some e =>
          put_msix {| entries := Some (<[Z.to_nat i :=
                         {| vector := vector e; entry := v mod 2 ^ 16 |}]> es);
                      evts := evts m; nvecs := nvecs m |}
      | None => fail OutOfBounds
      end
  end.

(** [for (i = ...; i < nvecs; ++i) entries[i].entry = i;] with [n]
    iterations left. *)
Fixpoint init_entries_loop (n : nat) (i : Z) : M unit :=
  match n with
  | O => ret tt
  | S n' => entries_store_entry i i ;; init_entries_loop n' (i + 1)
  end.

Definition kfree_entries : M unit :=
  modify (log Ev_kfree_entries).

Definition set_entries (es : option (list msix_entry)) : M unit :=
  m <- get_msix ;;
  put_msix {| entries := es; evts := evts m; nvecs := nvecs m |}.

Definition zero_entry : msix_entry := {| vector := 0; entry := 0 |}.

(** [pci_generic_init_msix(gdev)].  The buffer is zeroed by [kzalloc]:
    every vector is 0 and every handle NULL until written. *)
Definition pci_generic_init_msix : M Z :=
  _ <- deref_gdev ;;
  let nvecs := plat_msix_vec_count K in
  if nvecs =? 0 then ret (- EINVAL)
  else
    let size := (nvecs * (sizeof_msix_entry + sizeof_eventfd_ctx_ptr)) mod 2 ^ 64 in
    if negb (plat_kzalloc K size) then ret (- ENOMEM)
    else
      put_msix {| entries := Some (replicate (Z.to_nat nvecs) zero_entry);
                  evts := replicate (Z.to_nat nvecs) None;
                  nvecs := nvecs |} ;;
      init_entries_loop (Z.to_nat nvecs) 0 ;;
      r <- pci_enable_msix_exact nvecs ;;
      (if r <? 0 then
         kfree_entries ;;
         set_entries None
       else ret tt) ;;
      ret r.

(** [release(info, inode)] *)
Definition release : M Z :=
  _ <- deref_gdev ;;
  pci_clear_master ;;
  ret 0.

(** [irqhandler(irq, info)]: the legacy-line handler. *)
Definition irqhandler : M irqreturn_t :=
  _ <- deref_gdev ;;
  masked <- pci_check_and_mask_intx ;;
  if negb masked then ret IRQ_NONE
  else
    (* UIO core will signal the user process. *)
    ret IRQ_HANDLED.

Definition DRIVER_VERSION : string := "0.01.0".

Definition zero_info : uio_info :=
  {| name := EmptyString; version := EmptyString; info_irq := 0; irq_flags := 0;
     handler := None; info_release := None; ioctl := None |}.

Definition zero_gdev : uio_pci_generic_dev :=
  {| info := zero_info;
     msix_info := {| entries := None; evts := []; nvecs := 0 |} |}.

(** [kzalloc(sizeof(struct uio_pci_generic_dev), GFP_KERNEL)] *)
Definition kzalloc_gdev : M bool :=
  if plat_kzalloc_gdev K
  then modify (set_gdev (Some zero_gdev)) ;; ret true
  else ret false.

Definition kfree_gdev : M unit :=
  modify (log Ev_kfree_gdev) ;;
  modify (set_gdev None).

Definition upd_info (f : uio_info -> uio_info) : M unit :=
  g <- deref_gdev ;;
  modify (set_gdev (Some {| info := f (info g); msix_info := msix_info g |})).

(** [probe(pdev, id)] *)
Definition probe : M Z :=
  err <- pci_enable_device ;;
  if negb (err =? 0) then ret err
  else
    pdev <- get_pdev ;;
    if negb (irq pdev =? 0) && negb (pci_intx_mask_supported pdev) then
      (* err_verify: *)
      pci_disable_device ;;
      ret (- ENODEV)
    else
      gdev <- kzalloc_gdev ;;
      if negb gdev then
        (* err_alloc: *)
        pci_disable_device ;;
        ret (- ENOMEM)
      else
        upd_info (fun i =>
          {| name := "uio_pci_generic"; version := DRIVER_VERSION;
             info_irq := info_irq i; irq_flags := irq_flags i;
             handler := handler i; info_release := Some Release_release;
             ioctl := Some Ioctl_uio_msi_ioctl |}) ;;
        (if negb (irq pdev =? 0) then
           upd_info (fun i =>
             {| name := name i; version := version i;
                info_irq := irq pdev; irq_flags := IRQF_SHARED;
                handler := Some Handler_irqhandler;
                info_release := info_release i; ioctl := ioctl i |})
         else
           err <- pci_generic_init_msix ;;
           (* if (!err) dev_notice(...) *)
           ret tt) ;;
        err <- uio_register_device ;;
        if negb (err =? 0) then
          (* err_register: *)
          m <- get_msix ;;
          match entries m with
          | Some _ => kfree_entries
          | None => ret tt
          end ;;
          kfree_gdev ;;
          pci_disable_device ;;
          ret err
        else
          pci_set_drvdata ;;
          ret 0.

(** One iteration of the loop of [remove]. *)
Definition remove_slot (i : Z) : M unit :=
  e <- entries_at i ;;
  let irq := vector e in
  evt <- evts_at i ;;
  match evt with
  | Some evt =>
      free_irq irq evt ;;
      eventfd_ctx_put evt ;;
      evts_store i None
  | None => ret tt
  end.

(** [for (i = ...; i < nvecs; i++) { ... }] with [n] iterations left. *)
Fixpoint remove_loop (n : nat) (i : Z) : M unit :=
  match n with
  | O => ret tt
  | S n' => remove_slot i ;; remove_loop n' (i + 1)
  end.

(** [remove(pdev)].  A NULL [gdev] faults where it is first
    dereferenced. *)
Definition remove : M unit :=
  has_gdev <- pci_get_drvdata ;;
  if negb has_gdev then fail NullDeref
  else
    uio_unregister_device ;;
    m <- get_msix ;;
    match entries m with
    | Some _ =>
        remove_loop (Z.to_nat (nvecs m)) 0 ;;
        pci_disable_msix ;;
        kfree_entries ;;
        set_entries None
    | None => ret tt
    end ;;
    pci_disable_device ;;
    kfree_gdev.

End Driver.

(** ** Vocabulary of the specification *)

(** The notification handle of slot [i], when the table has such a slot. *)
Definition slot (w : world) (i : nat) : option (option eventfd_ctx) :=
  match w_gdev w with
  | Some g => evts (msix_info g) !! i
  | None => None
  end.

(** The hardware vector identifiers of the table. *)
Definition table_entries (w : world) : option (list msix_entry) :=
  match w_gdev w with
  | Some g => entries (msix_info g)
  | None => None
  end.

Definition table_nvecs (w : world) : option Z :=
  match w_gdev w with
  | Some g => Some (nvecs (msix_info g))
  | None => None
  end.

(** The table of actions after a sequence of calls. *)
Definition irqs_after (evs : list event) (t : gmap Z eventfd_ctx)
  : gmap Z eventfd_ctx := foldl irq_effect t evs.

(** The calls that tear down one slot: nothing for an empty slot. *)
Definition slot_teardown (e : msix_entry) (s : option eventfd_ctx) : list event :=
  match s with
  | Some evt => [Ev_free_irq (vector e) evt; Ev_eventfd_ctx_put evt]
  | None => []
  end.

(** The calls that tear down a table, slot by slot in index order. *)
Fixpoint table_teardown (es : list msix_entry) (ss : list (option eventfd_ctx))
  : list event :=
  match es, ss with
  | e :: es', s :: ss' => slot_teardown e s ++ table_teardown es' ss'
  | _, _ => []
  end.

(** Every action in the IRQ core's table belongs to a bound slot. *)
Definition actions_owned (t : gmap Z eventfd_ctx) (es : list msix_entry)
    (ss : list (option eventfd_ctx)) : Prop :=
  forall irqn d, t !! irqn = Some d ->
    exists i e, es !! i = Some e /\ vector e = irqn /\ ss !! i = Some (Some d).

(** The same, as a test on the finitely many registered actions. *)
Definition owns_action (es : list msix_entry) (ss : list (option eventfd_ctx))
    (a : Z * eventfd_ctx) : bool :=
  existsb (fun p : msix_entry * option eventfd_ctx =>
             (vector p.1 =? a.1) && bool_decide (p.2 = Some a.2))
          (zip es ss).

Definition actions_owned_b (t : gmap Z eventfd_ctx) (es : list msix_entry)
    (ss : list (option eventfd_ctx)) : bool :=
  forallb (owns_action es ss) (map_to_list t).

(** The handles signalled in a trace. *)
Definition signals (tr : list event) : list eventfd_ctx :=
  omap (fun e => match e with Ev_eventfd_signal c => Some c | _ => None end) tr.

(** Whether a call releases a handle reference, deregisters an interrupt
    path. *)
Definition is_put (e : event) : bool :=
  match e with Ev_eventfd_ctx_put _ => true | _ => false end.
Definition is_free_irq (e : event) : bool :=
  match e with Ev_free_irq _ _ => true | _ => false end.

(** "All deregistrations first, and only then the releases": no release
    is followed, anywhere later in the trace, by a deregistration. *)
Fixpoint frees_before_puts (tr : list event) : bool :=
  match tr with
  | [] => true
  | e :: tr' =>
      (if is_put e then forallb (fun e' => negb (is_free_irq e')) tr' else true)
      && frees_before_puts tr'
  end.

(** The entries of a table once the driver has numbered them from [i]. *)
Fixpoint number_entries (i : Z) (es : list msix_entry) : list msix_entry :=
  match es with
  | [] => []
  | e :: es' =>
      {| vector := vector e; entry := i mod 2 ^ 16 |} :: number_entries (i + 1) es'
  end.

(** The world with the table of its driver object [g] replaced. *)
Definition world_with_msix (w : world) (g : uio_pci_generic_dev)
    (m : uio_msix_info) : world :=
  set_gdev (Some {| info := info g; msix_info := m |}) w.

(** The world once the driver has made the calls [evs] and left the
    handles [ss] in the table of [g]: the trace grows by [evs], the IRQ
    core's table follows them, the rest is as in [w]. *)
Definition after_calls (w : world) (g : uio_pci_generic_dev)
    (ss : list (option eventfd_ctx)) (evs : list event) : world :=
  {| w_pdev := w_pdev w;
     w_gdev := Some {| info := info g;
                       msix_info := {| entries := entries (msix_info g);
                                       evts := ss;
                                       nvecs := nvecs (msix_info g) |} |};
     w_irqs := irqs_after evs (w_irqs w);
     w_uio := w_uio w;
     w_trace := w_trace w ++ evs |}.

(** ** Concrete devices

    A device with a four-entry vector table on a platform that can grant
    eight vectors, and a device with a legacy line.  File descriptors 3,
    4 and 5 are eventfds; no other descriptor resolves. *)

Module Example.

Definition K : platform :=
  {| plat_enable_device := 0;
     plat_kzalloc_gdev := true;
     plat_kzalloc := fun _ => true;
     plat_msix_vec_count := 4;
     plat_msix_avail := 8;
     plat_msix_vector := fun i => 40 + i;
     plat_fdget := fun fd =>
       if fd =? 3 then Some (Ctx 1)
       else if fd =? 4 then Some (Ctx 2)
       else if fd =? 5 then Some (Ctx 3) else None;
     plat_request_irq := fun _ _ => 0;
     plat_uio_register := 0 |}.

(** The same platform when it can grant only two of the four vectors. *)
Definition K_scarce : platform :=
  {| plat_enable_device := 0;
     plat_kzalloc_gdev := true;
     plat_kzalloc := fun _ => true;
     plat_msix_vec_count := 4;
     plat_msix_avail := 2;
     plat_msix_vector := fun i => 40 + i;
     plat_fdget := fun _ => None;
     plat_request_irq := fun _ _ => 0;
     plat_uio_register := 0 |}.

(** An unclaimed device without a legacy line. *)
Definition pdev_msix : pci_dev :=
  {| irq := 0; enable_cnt := 0; msi_enabled := false; msix_enabled := false;
     is_busmaster := true; command := 0; status := 0;
     intx_mask_supported := true; drvdata := false |}.

(** An unclaimed device on legacy line 11, with its interrupt pending or
    not, that supports masking at the device or not. *)
Definition pdev_legacy (pending maskable : bool) : pci_dev :=
  {| irq := 11; enable_cnt := 0; msi_enabled := false; msix_enabled := false;
     is_busmaster := true; command := 0;
     status := if pending then 8 else 0;
     intx_mask_supported := maskable; drvdata := false |}.

Definition unclaimed (p : pci_dev) : world :=
  {| w_pdev := p; w_gdev := None; w_irqs := ∅; w_uio := false; w_trace := [] |}.

Definition table : list msix_entry :=
  [ {| vector := 40; entry := 0 |}; {| vector := 41; entry := 1 |};
    {| vector := 42; entry := 2 |}; {| vector := 43; entry := 3 |} ].

Definition gdev_msix (ss : list (option eventfd_ctx)) : uio_pci_generic_dev :=
  {| info := {| name := "uio_pci_generic"; version := DRIVER_VERSION;
                info_irq := 0; irq_flags := 0; handler := None;
                info_release := Some Release_release;
                ioctl := Some Ioctl_uio_msi_ioctl |};
     msix_info := {| entries := Some table; evts := ss; nvecs := 4 |} |}.

Definition gdev_legacy : uio_pci_generic_dev :=
  {| info := {| name := "uio_pci_generic"; version := DRIVER_VERSION;
                info_irq := 11; irq_flags := IRQF_SHARED;
                handler := Some Handler_irqhandler;
                info_release := Some Release_release;
                ioctl := Some Ioctl_uio_msi_ioctl |};
     msix_info := {| entries := None; evts := []; nvecs := 0 |} |}.

(** The vector-mode device once claimed, with the given handles bound and
    the given actions registered. *)
Definition claimed (ss : list (option eventfd_ctx))
    (t : gmap Z eventfd_ctx) : world :=
  {| w_pdev := {| irq := 0; enable_cnt := 1; msi_enabled := false;
                  msix_enabled := true; is_busmaster := true; command := 0;
                  status := 0; intx_mask_supported := true; drvdata := true |};
     w_gdev := Some (gdev_msix ss);
     w_irqs := t;
     w_uio := true;
     w_trace := [] |}.

(** Slot 0 bound to context 1; slots 0 and 2 bound to contexts 1 and 2. *)
Definition w_bound0 : world :=
  claimed [Some (Ctx 1); None; None; None] (<[40 := Ctx 1]> ∅).
Definition w_bound02 : world :=
  claimed [Some (Ctx 1); None; Some (Ctx 2); None]
          (<[42 := Ctx 2]> (<[40 := Ctx 1]> ∅)).

(** The legacy device once claimed. *)
Definition claimed_legacy (pending : bool) : world :=
  {| w_pdev := {| irq := 11; enable_cnt := 1; msi_enabled := false;
                  msix_enabled := false; is_busmaster := true; command := 0;
                  status := if pending then 8 else 0;
                  intx_mask_supported := true; drvdata := true |};
     w_gdev := Some gdev_legacy;
     w_irqs := ∅;
     w_uio := true;
     w_trace := [] |}.

(** The world after a call that returns, the world as it was after one
    that faults: for chaining calls in a scenario. *)
Definition run {A} (m : M A) (w : world) : world :=
  match m w with
  | Ok _ w' => w'
  | Oops _ => w
  end.

End Example.

(** ** Vocabulary of the life cycle *)

(** The handles of the table, none when there is no driver object. *)
Definition table_evts (w : world) : list (option eventfd_ctx) :=
  match w_gdev w with
  | Some g => evts (msix_info g)
  | None => []
  end.

(** Every bound slot has its interrupt path registered, closed over the
    handle of the slot. *)
Definition bound_registered (t : gmap Z eventfd_ctx) (es : list msix_entry)
    (ss : list (option eventfd_ctx)) : Prop :=
  forall i e d, es !! i = Some e -> ss !! i = Some (Some d) ->
    t !! vector e = Some d.

Definition bound_registered_b (t : gmap Z eventfd_ctx) (es : list msix_entry)
    (ss : list (option eventfd_ctx)) : bool :=
  forallb (fun p : msix_entry * option eventfd_ctx =>
             match p.2 with
             | Some d => bool_decide (t !! vector p.1 = Some d)
             | None => true
             end)
          (zip es ss).

(** A binding in vector mode as [probe] leaves it and the ioctl keeps it:
    the driver object is reachable from the device, the two arrays have
    [nvecs] elements, the lines of the table are pairwise distinct, and
    the IRQ core's table holds exactly the actions of the bound slots. *)
Definition binding_ok (w : world) : Prop :=
  drvdata (w_pdev w) = true /\
  exists g es,
    w_gdev w = Some g /\
    entries (msix_info g) = Some es /\
    nvecs (msix_info g) = Z.of_nat (length es) /\
    length (evts (msix_info g)) = length es /\
    NoDup (vector <$> es) /\
    actions_owned (w_irqs w) es (evts (msix_info g)) /\
    bound_registered (w_irqs w) es (evts (msix_info g)).

Definition binding_ok_b (w : world) : bool :=
  drvdata (w_pdev w) &&
  match w_gdev w with
  | Some g =>
      match entries (msix_info g) with
      | Some es =>
          (nvecs (msix_info g) =? Z.of_nat (length es))
          && (length (evts (msix_info g)) =? length es)%nat
          && bool_decide (NoDup (vector <$> es))
          && actions_owned_b (w_irqs w) es (evts (msix_info g))
          && bound_registered_b (w_irqs w) es (evts (msix_info g))
      | None => false
      end
  | None => false
  end.

(** How many elements of a list pass a test. *)
Fixpoint tally {A} (p : A -> bool) (l : list A) : nat :=
  match l with
  | [] => 0
  | x :: l' => ((if p x then 1 else 0) + tally p l')%nat
  end.

(** A lookup that took a reference to [c]; a release of a reference to
    [c]; a slot that holds [c]. *)
Definition is_acquire (K : platform) (c : eventfd_ctx) (e : event) : bool :=
  match e with
  | Ev_eventfd_ctx_fdget fd => bool_decide (plat_fdget K fd = Some c)
  | _ => false
  end.
Definition is_release (c : eventfd_ctx) (e : event) : bool :=
  match e with
  | Ev_eventfd_ctx_put d => bool_decide (d = c)
  | _ => false
  end.
Definition holds (c : eventfd_ctx) (s : option eventfd_ctx) : bool :=
  bool_decide (s = Some c).

(** Every reference taken has been released or is held by a slot. *)
Definition refs_balanced (K : platform) (w : world) : Prop :=
  forall c, tally (is_acquire K c) (w_trace w)
            = (tally (is_release c) (w_trace w)
               + tally (holds c) (table_evts w))%nat.

(** The handles released and the interrupt paths deregistered in a
    trace, in order. *)
Definition puts (tr : list event) : list eventfd_ctx :=
  omap (fun e => match e with Ev_eventfd_ctx_put c => Some c | _ => None end) tr.
Definition frees (tr : list event) : list (Z * eventfd_ctx) :=
  omap (fun e => match e with Ev_free_irq n c => Some (n, c) | _ => None end) tr.

(** The line and handle of every bound slot of a table, in index order. *)
Definition bound_pairs (es : list msix_entry) (ss : list (option eventfd_ctx))
  : list (Z * eventfd_ctx) :=
  omap (fun p : msix_entry * option eventfd_ctx =>
          match p.2 with Some d => Some (vector p.1, d) | None => None end)
       (zip es ss).

(** What can happen to a binding between [probe] and [remove]: an ioctl
    of the consumer, the consumer closing the device, an interrupt. *)
Inductive op :=
| Op_ioctl (cmd : Z) (arg : option uio_msix_data)
| Op_release
| Op_irq (irqn : Z).

Definition run_op (K : platform) (UIO_MSIX_DATA : Z) (o : op) : M unit :=
  match o with
  | Op_ioctl cmd arg => _ <- uio_msi_ioctl K UIO_MSIX_DATA cmd arg ;; ret tt
  | Op_release => _ <- release ;; ret tt
  | Op_irq irqn => _ <- generic_handle_irq uio_msix_handler irqn ;; ret tt
  end.

Fixpoint run_ops (K : platform) (UIO_MSIX_DATA : Z) (os : list op) : M unit :=
  match os with
  | [] => ret tt
  | o :: os' => run_op K UIO_MSIX_DATA o ;; run_ops K UIO_MSIX_DATA os'
  end.

(** An ioctl that binds (non-negative descriptor) names a non-negative
    index. *)
Definition op_index_nonneg (UIO_MSIX_DATA : Z) (o : op) : bool :=
  match o with
  | Op_ioctl cmd (Some d) =>
      negb (cmd =? UIO_MSIX_DATA) || (data_fd d <? 0) || (0 <=? data_vector d)
  | _ => true
  end.

(** ** More concrete inputs *)

Module Scenario.

(** The command number taken for [UIO_MSIX_DATA]. *)
Definition UIO_MSIX_DATA : Z := 100.

(** The four-vector platform when [request_irq] fails with -EBUSY. *)
Definition K_busy : platform :=
  {| plat_enable_device := 0;
     plat_kzalloc_gdev := true;
     plat_kzalloc := fun _ => true;
     plat_msix_vec_count := 4;
     plat_msix_avail := 8;
     plat_msix_vector := fun i => 40 + i;
     plat_fdget := plat_fdget Example.K;
     plat_request_irq := fun _ _ => -16;
     plat_uio_register := 0 |}.

(** The four-vector platform when [uio_register_device] fails with
    -ENOMEM. *)
Definition K_no_register : platform :=
  {| plat_enable_device := 0;
     plat_kzalloc_gdev := true;
     plat_kzalloc := fun _ => true;
     plat_msix_vec_count := 4;
     plat_msix_avail := 8;
     plat_msix_vector := fun i => 40 + i;
     plat_fdget := plat_fdget Example.K;
     plat_request_irq := fun _ _ => 0;
     plat_uio_register := -12 |}.

(** A session of the consumer: bind vectors 0 and 2, an interrupt on
    each line, rebind vector 0, a descriptor that does not resolve on
    vector 2, an index past the table, the disable request, an unknown
    command, a failed copy from user space, close. *)
Definition session : list op :=
  [ Op_ioctl 100 (Some {| data_fd := 3; data_vector := 0 |});
    Op_ioctl 100 (Some {| data_fd := 4; data_vector := 2 |});
    Op_irq 40; Op_irq 42;
    Op_ioctl 100 (Some {| data_fd := 5; data_vector := 0 |});
    Op_ioctl 100 (Some {| data_fd := 9; data_vector := 2 |});
    Op_ioctl 100 (Some {| data_fd := 3; data_vector := 4 |});
    Op_ioctl 100 (Some {| data_fd := -1; data_vector := 0 |});
    Op_ioctl 7 None;
    Op_ioctl 100 None;
    Op_release ].

End Scenario.

(** * Properties *)

(** Two worlds with the same components are the same world. *)
Lemma world_eq w1 w2 :
  w_pdev w1 = w_pdev w2 -> w_gdev w1 = w_gdev w2 -> w_irqs w1 = w_irqs w2 ->
  w_uio w1 = w_uio w2 -> w_trace w1 = w_trace w2 -> w1 = w2.
Proof. destruct w1, w2. simpl. now intros -> -> -> -> ->. Qed.

(** ** Array indexing *)

Lemma lookupZ_nonneg {A} (l : list A) (i : Z) :
  0 <= i -> lookupZ l i = l !! Z.to_nat i.
Proof. intros Hi. unfold lookupZ. destruct (Z.ltb_spec i 0); [lia | reflexivity]. Qed.

Lemma lookupZ_neg {A} (l : list A) (i : Z) :
  i < 0 -> lookupZ l i = None.
Proof. intros Hi. unfold lookupZ. destruct (Z.ltb_spec i 0); [reflexivity | lia]. Qed.

Lemma lookupZ_of_nat {A} (l : list A) (k : nat) :
  lookupZ l (Z.of_nat k) = l !! k.
Proof. rewrite lookupZ_nonneg by lia. now rewrite Nat2Z.id. Qed.

(** ** The IRQ core's table as a function of the calls made *)

Lemma irqs_after_app evs1 evs2 t :
  irqs_after (evs1 ++ evs2) t = irqs_after evs2 (irqs_after evs1 t).
Proof. unfold irqs_after. apply foldl_app. Qed.

Lemma irq_effect_free_not_dev_id t irqn d :
  irq_effect t (Ev_free_irq irqn d) !! irqn <> Some d.
Proof.
  simpl. destruct (t !! irqn) as [d'|] eqn:Ht.
  - destruct (decide (d' = d)) as [->|Hne].
    + rewrite lookup_delete_eq. discriminate.
    + rewrite Ht. congruence.
  - rewrite Ht. discriminate.
Qed.

Lemma irq_effect_free_other t irqn d irqn' :
  irqn' <> irqn -> irq_effect t (Ev_free_irq irqn d) !! irqn' = t !! irqn'.
Proof.
  intros Hne. simpl. destruct (t !! irqn) as [d'|]; [|reflexivity].
  destruct (decide (d' = d)); [|reflexivity].
  now apply lookup_delete_ne.
Qed.

(** ** [map_msix_eventfd]: what a call does, case by case *)

Ltac unfold_monad :=
  unfold bind, ret, fail, modify, irq_call, get_msix, put_msix, get_pdev,
    deref_gdev, upd_pdev in *.

Arguments irq_effect : simpl never.

(** A call with a non-negative [fd] and an index at or above [nvecs]. *)
Lemma map_msix_eventfd_above K fd vec w g :
  0 <= fd -> nvecs (msix_info g) <= vec -> w_gdev w = Some g ->
  map_msix_eventfd K fd vec w = Ok (- EINVAL) w.
Proof.
  intros Hfd Hvec Hg. unfold map_msix_eventfd.
  destruct (Z.ltb_spec fd 0); [lia|].
  unfold_monad. rewrite Hg.
  destruct (Z.geb_spec vec (nvecs (msix_info g))); [reflexivity | lia].
Qed.

(** A call with a non-negative [fd] and an index of the table: the slot is
    torn down if it was bound, then the descriptor is looked up, then the
    interrupt path is registered and the handle installed. *)
Lemma map_msix_eventfd_in_range K fd vec w g es e s :
  0 <= fd -> 0 <= vec < nvecs (msix_info g) ->
  w_gdev w = Some g -> entries (msix_info g) = Some es ->
  es !! Z.to_nat vec = Some e ->
  evts (msix_info g) !! Z.to_nat vec = Some s ->
  map_msix_eventfd K fd vec w =
    let i := Z.to_nat vec in
    let ss := evts (msix_info g) in
    let pre := slot_teardown e s ++ [Ev_eventfd_ctx_fdget fd] in
    match plat_fdget K fd with
    | None => Ok (- EINVAL) (after_calls w g (<[i := None]> ss) pre)
    | Some new =>
        let err := plat_request_irq K (vector e) new in
        if err =? 0
        then Ok 0 (after_calls w g (<[i := Some new]> ss)
                     (pre ++ [Ev_request_irq (vector e) new 0]))
        else Ok err (after_calls w g (<[i := None]> ss)
                       (pre ++ [Ev_request_irq (vector e) new err;
                                Ev_eventfd_ctx_put new]))
    end.
Proof.
  intros Hfd Hvec Hg Hes He Hs.
  destruct w as [p og t u tr]. simpl in Hg. subst og.
  destruct g as [inf [oes ss n]]. simpl in *. subst oes.
  assert (Hlz : forall A (l : list A), lookupZ l vec = l !! Z.to_nat vec)
    by (intros; apply lookupZ_nonneg; lia).
  assert (Hlt : (Z.to_nat vec < length ss)%nat)
    by (eapply lookup_lt_Some; eassumption).
  unfold map_msix_eventfd.
  destruct (Z.ltb_spec fd 0); [lia|].
  unfold entries_at, evts_at, evts_store, eventfd_ctx_fdget, request_irq,
    free_irq, eventfd_ctx_put.
  unfold_monad. simpl.
  destruct (Z.geb_spec vec n); [lia|]. simpl.
  rewrite Hlz, He. simpl. rewrite Hlz, Hs. simpl.
  unfold after_calls, irqs_after, log, set_irqs, set_gdev.
  destruct s as [old|]; simpl.
  - rewrite Hlz, Hs. simpl.
    destruct (plat_fdget K fd) as [new|]; simpl; [|now rewrite <- !app_assoc].
    destruct (Z.eqb_spec (plat_request_irq K (vector e) new) 0) as [Hr|Hr]; simpl.
    + rewrite Hlz, list_lookup_insert_eq by assumption. simpl.
      rewrite list_insert_insert_eq, Hr, <- !app_assoc. reflexivity.
    + now rewrite <- !app_assoc.
  - rewrite (list_insert_id ss (Z.to_nat vec) None Hs).
    destruct (plat_fdget K fd) as [new|]; simpl; [|reflexivity].
    destruct (Z.eqb_spec (plat_request_irq K (vector e) new) 0) as [Hr|Hr]; simpl.
    + rewrite Hlz, Hs. simpl. rewrite Hr, <- !app_assoc. reflexivity.
    + now rewrite <- !app_assoc.
Qed.


(** A call with a negative [fd]: one call to [pci_disable_msi], whatever
    the index; the table is not read. *)
Lemma map_msix_eventfd_sentinel K fd vec w g :
  fd < 0 -> w_gdev w = Some g ->
  map_msix_eventfd K fd vec w =
    Ok 0 (set_pdev (with_msi false (w_pdev w)) (log Ev_pci_disable_msi w)).
Proof.
  intros Hfd Hg. unfold map_msix_eventfd.
  destruct (Z.ltb_spec fd 0); [|lia].
  unfold pci_disable_msi. unfold_monad. rewrite Hg. reflexivity.
Qed.

Lemma slot_after_calls w g ss evs i :
  slot (after_calls w g ss evs) i = ss !! i.
Proof. reflexivity. Qed.

Lemma irqs_after_teardown_not_old e old t :
  irqs_after (slot_teardown e (Some old)) t !! vector e <> Some old.
Proof. unfold irqs_after. simpl. apply irq_effect_free_not_dev_id. Qed.

Lemma irqs_after_teardown_other e s t irqn :
  irqn <> vector e -> irqs_after (slot_teardown e s) t !! irqn = t !! irqn.
Proof.
  intros Hne. unfold irqs_after. destruct s; simpl; [|reflexivity].
  now apply irq_effect_free_other.
Qed.

(** ** The notification registry *)

(** C1.  A rebind of a bound slot (non-negative [fd] that resolves to a
    handle [new], index of the table whose slot holds [old], registration
    granted) makes exactly these calls, in this order: [free_irq] for the
    slot's line under [old], [eventfd_ctx_put] of [old], the lookup of
    [fd], [request_irq] for the line under [new]; it returns 0 with [new]
    installed in the slot.  From the first call on, at every point inside
    the call, the action on the line is not closed over [old]; when the
    call returns the action on the line is closed over [new], so an
    interrupt on the line signals [new] once and nothing else. *)
Theorem rebind_deregisters_releases_installs K fd vec w g es e old new :
  0 <= fd -> 0 <= vec < nvecs (msix_info g) ->
  w_gdev w = Some g -> entries (msix_info g) = Some es ->
  es !! Z.to_nat vec = Some e ->
  evts (msix_info g) !! Z.to_nat vec = Some (Some old) ->
  plat_fdget K fd = Some new ->
  plat_request_irq K (vector e) new = 0 ->
  let calls := [Ev_free_irq (vector e) old; Ev_eventfd_ctx_put old;
                Ev_eventfd_ctx_fdget fd; Ev_request_irq (vector e) new 0] in
  exists w',
    map_msix_eventfd K fd vec w = Ok 0 w' /\
    w_trace w' = w_trace w ++ calls /\
    w_irqs w' = irqs_after calls (w_irqs w) /\
    (forall k, (0 < k < 4)%nat ->
       irqs_after (take k calls) (w_irqs w) !! vector e <> Some old) /\
    slot w' (Z.to_nat vec) = Some (Some new) /\
    w_irqs w' !! vector e = Some new /\
    generic_handle_irq uio_msix_handler (vector e) w'
      = Ok IRQ_HANDLED (log (Ev_eventfd_signal new) w').
Proof.
  intros Hfd Hvec Hg Hes He Hs Hnew Hreq calls.
  rewrite (map_msix_eventfd_in_range K fd vec w g es e (Some old)) by assumption.
  cbv zeta. rewrite Hnew, Hreq. simpl.
  set (w' := after_calls _ _ _ _).
  assert (Hirqs : w_irqs w' = irqs_after calls (w_irqs w)) by reflexivity.
  assert (Hirq : w_irqs w' !! vector e = Some new).
  { rewrite Hirqs. unfold calls, irqs_after. simpl. unfold irq_effect at 1.
    simpl. apply lookup_insert_eq. }
  exists w'. repeat split; try assumption; try reflexivity.
  - intros k Hk. unfold calls.
    destruct k as [|[|[|[|k]]]]; try lia; simpl;
      apply (irq_effect_free_not_dev_id (w_irqs w) (vector e) old).
  - unfold w'. rewrite slot_after_calls. apply list_lookup_insert_eq.
    eapply lookup_lt_Some; eassumption.
  - unfold generic_handle_irq. rewrite Hirq. reflexivity.
Qed.

(** The witness: slot 0 of the four-vector device, bound to context 1, is
    rebound to descriptor 4 (context 2). *)
Lemma rebind_deregisters_releases_installs_witness :
  exists w',
    map_msix_eventfd Example.K 4 0 Example.w_bound0 = Ok 0 w' /\
    w_trace w' = [Ev_free_irq 40 (Ctx 1); Ev_eventfd_ctx_put (Ctx 1);
                  Ev_eventfd_ctx_fdget 4; Ev_request_irq 40 (Ctx 2) 0] /\
    slot w' 0 = Some (Some (Ctx 2)) /\
    w_irqs w' !! 40 = Some (Ctx 2).
Proof.
  destruct (rebind_deregisters_releases_installs Example.K 4 0 Example.w_bound0
              (Example.gdev_msix [Some (Ctx 1); None; None; None])
              Example.table {| vector := 40; entry := 0 |} (Ctx 1) (Ctx 2))
    as (w' & Hrun & Htr & _ & _ & Hslot & Hirq & _);
    [lia | simpl; lia | reflexivity | reflexivity | reflexivity | reflexivity
    | reflexivity | reflexivity |].
  exists w'. repeat split; assumption.
Defined.

(** Whatever the outcome of a call on a bound slot, it starts with the
    teardown of the slot and the lookup, and when it returns the action on
    the slot's line is closed over the old handle only if that very handle
    was looked up and registered again. *)
Lemma bound_slot_call_unregisters_old K fd vec w g es e old r w' :
  0 <= fd -> 0 <= vec < nvecs (msix_info g) ->
  w_gdev w = Some g -> entries (msix_info g) = Some es ->
  es !! Z.to_nat vec = Some e ->
  evts (msix_info g) !! Z.to_nat vec = Some (Some old) ->
  map_msix_eventfd K fd vec w = Ok r w' ->
  (exists rest,
     w_trace w' = w_trace w ++ Ev_free_irq (vector e) old
                    :: Ev_eventfd_ctx_put old
                    :: Ev_eventfd_ctx_fdget fd :: rest) /\
  (w_irqs w' !! vector e = Some old -> plat_fdget K fd = Some old /\ r = 0).
Proof.
  intros Hfd Hvec Hg Hes He Hs Hrun.
  rewrite (map_msix_eventfd_in_range K fd vec w g es e (Some old)) in Hrun
    by assumption.
  cbv zeta in Hrun.
  pose proof (irq_effect_free_not_dev_id (w_irqs w) (vector e) old) as Hfree.
  destruct (plat_fdget K fd) as [new|].
  - destruct (Z.eqb_spec (plat_request_irq K (vector e) new) 0) as [Hr|Hr];
      inversion Hrun; subst; simpl.
    + split; [now eexists|]. unfold irqs_after. simpl.
      unfold irq_effect at 1. simpl. rewrite lookup_insert_eq.
      now intros [= ->].
    + split; [now eexists|]. unfold irqs_after. simpl.
      unfold irq_effect at 1 2. rewrite (proj2 (Z.eqb_neq _ _) Hr).
      intros Hold. now apply Hfree in Hold.
  - inversion Hrun; subst; simpl. split; [now eexists|].
    unfold irqs_after. simpl. intros Hold. now apply Hfree in Hold.
Qed.

(** C3, as stated, fails.  Slot 0 holds context 1 and descriptor 7 does
    not resolve: the call fails with -EINVAL, but the slot is not left
    unchanged.  The handle that was bound is no longer installed, its
    interrupt path is no longer registered, and its reference has been
    released. *)
Lemma lookup_failure_slot_unchanged_counterexample :
  plat_fdget Example.K 7 = None /\
  slot Example.w_bound0 0 = Some (Some (Ctx 1)) /\
  w_irqs Example.w_bound0 !! 40 = Some (Ctx 1) /\
  exists w',
    map_msix_eventfd Example.K 7 0 Example.w_bound0 = Ok (- EINVAL) w' /\
    slot w' 0 = Some None /\
    w_irqs w' !! 40 = None /\
    w_trace w' = [Ev_free_irq 40 (Ctx 1); Ev_eventfd_ctx_put (Ctx 1);
                  Ev_eventfd_ctx_fdget 7].
Proof.
  split; [reflexivity|]. split; [reflexivity|]. split; [reflexivity|].
  eexists. split; [vm_compute; reflexivity|].
  repeat split; reflexivity.
Qed.

(** C3, amended.  For a non-negative [fd] that does not resolve and an
    index of the table, the call fails with -EINVAL and installs nothing:
    the addressed slot is empty afterwards and no interrupt path has been
    registered.  The calls made are the teardown of the slot, if it held
    a handle ([free_irq], then [eventfd_ctx_put]), and the lookup.  A slot
    that was empty is left as it was, with the IRQ core's table; a slot
    that held a handle has lost it, and the action on its line is no
    longer closed over that handle.  Other slots, the vector identifiers
    and the device are unchanged. *)
Theorem lookup_failure_leaves_slot_empty K fd vec w g es e s :
  0 <= fd -> 0 <= vec < nvecs (msix_info g) ->
  w_gdev w = Some g -> entries (msix_info g) = Some es ->
  es !! Z.to_nat vec = Some e ->
  evts (msix_info g) !! Z.to_nat vec = Some s ->
  plat_fdget K fd = None ->
  exists w',
    map_msix_eventfd K fd vec w = Ok (- EINVAL) w' /\
    slot w' (Z.to_nat vec) = Some None /\
    w_trace w' = w_trace w ++ slot_teardown e s ++ [Ev_eventfd_ctx_fdget fd] /\
    w_irqs w' = irqs_after (slot_teardown e s) (w_irqs w) /\
    (s = None -> w_irqs w' = w_irqs w /\ w_gdev w' = w_gdev w) /\
    (forall old, s = Some old -> w_irqs w' !! vector e <> Some old) /\
    (forall j, j <> Z.to_nat vec -> slot w' j = slot w j) /\
    table_entries w' = table_entries w /\
    w_pdev w' = w_pdev w.
Proof.
  intros Hfd Hvec Hg Hes He Hs Hnone.
  rewrite (map_msix_eventfd_in_range K fd vec w g es e s) by assumption.
  cbv zeta. rewrite Hnone.
  set (w' := after_calls _ _ _ _).
  assert (Hirqs : w_irqs w' = irqs_after (slot_teardown e s) (w_irqs w)).
  { unfold w'. simpl. rewrite irqs_after_app. reflexivity. }
  exists w'. split_and!; try assumption; try reflexivity.
  - unfold w'. rewrite slot_after_calls. apply list_lookup_insert_eq.
    eapply lookup_lt_Some; eassumption.
  - intros ->. split; [exact Hirqs|]. unfold w'. simpl. rewrite Hg.
    rewrite (list_insert_id _ _ _ Hs).
    destruct g as [inf [oes ss n]]. reflexivity.
  - intros old ->. rewrite Hirqs. apply irqs_after_teardown_not_old.
  - intros j Hj. unfold w'. rewrite slot_after_calls. unfold slot. rewrite Hg.
    now apply list_lookup_insert_ne.
  - unfold table_entries. now rewrite Hg.
Qed.

(** The witness: the input of the counterexample. *)
Lemma lookup_failure_leaves_slot_empty_witness :
  exists w',
    map_msix_eventfd Example.K 7 0 Example.w_bound0 = Ok (- EINVAL) w' /\
    slot w' 0 = Some None /\
    w_irqs w' !! 40 <> Some (Ctx 1).
Proof.
  destruct (lookup_failure_leaves_slot_empty Example.K 7 0 Example.w_bound0
              (Example.gdev_msix [Some (Ctx 1); None; None; None])
              Example.table {| vector := 40; entry := 0 |} (Some (Ctx 1)))
    as (w' & Hrun & Hslot & _ & _ & _ & Hold & _);
    [lia | simpl; lia | reflexivity | reflexivity | reflexivity | reflexivity
    | reflexivity |].
  exists w'. repeat split; [assumption | assumption |].
  apply (Hold (Ctx 1)). reflexivity.
Defined.

(** C10.  A successful bind of an index of the table changes slot [i]
    only.  Every other slot holds what it held; the vector identifiers,
    [nvecs], the number of slots and the device are unchanged; the action
    on every line but slot [i]'s is unchanged, and so, the lines of the
    table being distinct, is the registration of every other slot. *)
Theorem bind_changes_one_slot K fd vec w w' g es ei :
  0 <= fd -> 0 <= vec < nvecs (msix_info g) ->
  w_gdev w = Some g -> entries (msix_info g) = Some es ->
  es !! Z.to_nat vec = Some ei ->
  map_msix_eventfd K fd vec w = Ok 0 w' ->
  (forall j, j <> Z.to_nat vec -> slot w' j = slot w j) /\
  (NoDup (vector <$> es) ->
   forall j ej, j <> Z.to_nat vec -> es !! j = Some ej ->
     w_irqs w' !! vector ej = w_irqs w !! vector ej) /\
  (forall irqn, irqn <> vector ei -> w_irqs w' !! irqn = w_irqs w !! irqn) /\
  table_entries w' = Some es /\
  table_nvecs w' = table_nvecs w /\
  (exists g', w_gdev w' = Some g' /\
     length (evts (msix_info g')) = length (evts (msix_info g))) /\
  w_pdev w' = w_pdev w.
Proof.
  intros Hfd Hvec Hg Hes He Hrun.
  destruct (lookupZ (evts (msix_info g)) vec) as [s|] eqn:Hs.
  2:{ exfalso. revert Hrun. unfold map_msix_eventfd.
      destruct (Z.ltb_spec fd 0); [lia|].
      unfold entries_at, evts_at. unfold_monad. rewrite Hg.
      destruct (Z.geb_spec vec (nvecs (msix_info g))); [lia|].
      rewrite Hg, Hes, lookupZ_nonneg, He, Hg, Hs by lia. discriminate. }
  rewrite lookupZ_nonneg in Hs by lia.
  rewrite (map_msix_eventfd_in_range K fd vec w g es ei s) in Hrun by assumption.
  cbv zeta in Hrun.
  destruct (plat_fdget K fd) as [new|]; [|inversion Hrun].
  destruct (Z.eqb_spec (plat_request_irq K (vector ei) new) 0) as [Hr|Hr];
    [|inversion Hrun; contradiction].
  inversion Hrun as [Hw']. clear Hrun.
  assert (Hother : forall irqn, irqn <> vector ei ->
            irqs_after ((slot_teardown ei s ++ [Ev_eventfd_ctx_fdget fd])
                        ++ [Ev_request_irq (vector ei) new 0]) (w_irqs w) !! irqn
            = w_irqs w !! irqn).
  { intros irqn Hne. rewrite !irqs_after_app. unfold irqs_after at 1 2. simpl.
    unfold irq_effect at 1. simpl. rewrite lookup_insert_ne by congruence.
    unfold irq_effect at 1. now apply irqs_after_teardown_other. }
  split_and!.
  - intros j Hj. rewrite slot_after_calls. unfold slot. rewrite Hg.
    now apply list_lookup_insert_ne.
  - intros Hnd j ej Hj Hej. simpl. apply Hother. intros Heq.
    apply Hj. eapply NoDup_lookup; [exact Hnd | |].
    + rewrite list_lookup_fmap, Hej. reflexivity.
    + rewrite list_lookup_fmap, He. simpl. now rewrite Heq.
  - intros irqn Hne. simpl. now apply Hother.
  - unfold table_entries. simpl. exact Hes.
  - unfold table_nvecs. simpl. now rewrite Hg.
  - eexists. split; [reflexivity|]. simpl. apply length_insert.
  - reflexivity.
Qed.

(** The witness: slot 2 of the four-vector device is bound to descriptor
    4 while slot 0 holds context 1. *)
Lemma bind_changes_one_slot_witness :
  map_msix_eventfd Example.K 4 2 Example.w_bound0
    = Ok 0 (after_calls Example.w_bound0
              (Example.gdev_msix [Some (Ctx 1); None; None; None])
              [Some (Ctx 1); None; Some (Ctx 2); None]
              [Ev_eventfd_ctx_fdget 4; Ev_request_irq 42 (Ctx 2) 0]) /\
  forall j, j <> 2%nat ->
    slot (after_calls Example.w_bound0
            (Example.gdev_msix [Some (Ctx 1); None; None; None])
            [Some (Ctx 1); None; Some (Ctx 2); None]
            [Ev_eventfd_ctx_fdget 4; Ev_request_irq 42 (Ctx 2) 0]) j
    = slot Example.w_bound0 j.
Proof.
  assert (Hrun : map_msix_eventfd Example.K 4 2 Example.w_bound0
    = Ok 0 (after_calls Example.w_bound0
              (Example.gdev_msix [Some (Ctx 1); None; None; None])
              [Some (Ctx 1); None; Some (Ctx 2); None]
              [Ev_eventfd_ctx_fdget 4; Ev_request_irq 42 (Ctx 2) 0]))
    by (vm_compute; reflexivity).
  split; [exact Hrun|].
  apply (bind_changes_one_slot Example.K 4 2 Example.w_bound0 _
           (Example.gdev_msix [Some (Ctx 1); None; None; None])
           Example.table {| vector := 42; entry := 2 |});
    [lia | simpl; lia | reflexivity | reflexivity | reflexivity
    | exact Hrun].
Defined.

(** C2.  The range test of [map_msix_eventfd] rejects an index at or
    above [nvecs] and leaves the world as it was, but it has no lower
    bound: with a resolvable descriptor and index -1 the call does not
    return -EINVAL.  On the device with a vector table it reads
    [entries[-1]], outside the table; on the legacy device, whose table
    pointer is NULL and whose [nvecs] is 0, it dereferences NULL. *)
Theorem negative_index_passes_range_test :
  map_msix_eventfd Example.K 3 4 Example.w_bound0
    = Ok (- EINVAL) Example.w_bound0 /\
  map_msix_eventfd Example.K 3 (-1) Example.w_bound0 = Oops OutOfBounds /\
  map_msix_eventfd Example.K 3 (-1) (Example.claimed_legacy false)
    = Oops NullDeref.
Proof. split_and!; vm_compute; reflexivity. Qed.

(** C9.  With the sentinel descriptor -1 the call returns 0 and reads no
    slot, but the one thing it does is [pci_disable_msi]: the vector
    delivery that [pci_enable_msix_exact] enabled is still enabled, the
    interrupt path of the bound slot is still registered, and an interrupt
    on its line still signals the handle. *)
Theorem sentinel_leaves_vector_delivery_enabled :
  exists w',
    map_msix_eventfd Example.K (-1) 0 Example.w_bound0 = Ok 0 w' /\
    w_trace w' = [Ev_pci_disable_msi] /\
    w_gdev w' = w_gdev Example.w_bound0 /\
    msix_enabled (w_pdev w') = true /\
    w_irqs w' !! 40 = Some (Ctx 1) /\
    generic_handle_irq uio_msix_handler 40 w'
      = Ok IRQ_HANDLED (log (Ev_eventfd_signal (Ctx 1)) w').
Proof.
  eexists. split; [vm_compute; reflexivity|].
  split_and!; reflexivity.
Qed.

(** ** The legacy-line handler *)

Lemma testbit_intx_disable c :
  Z.testbit (Z.lor c PCI_COMMAND_INTX_DISABLE) 10 = true.
Proof. rewrite Z.lor_spec. apply orb_true_r. Qed.

(** C7.  On every invocation of [irqhandler]: if the device's pending bit
    is clear the result is [IRQ_NONE] and the world is exactly as it was;
    if it is set the result is [IRQ_HANDLED], the interrupt-disable bit of
    the device's command register is set, and nothing else changes: in
    particular the trace is the same, so no handle was signalled. *)
Theorem irqhandler_checks_and_masks w g :
  w_gdev w = Some g ->
  (Z.testbit (status (w_pdev w)) PCI_STATUS_INTERRUPT_BIT = false ->
     irqhandler w = Ok IRQ_NONE w) /\
  (Z.testbit (status (w_pdev w)) PCI_STATUS_INTERRUPT_BIT = true ->
     exists w',
       irqhandler w = Ok IRQ_HANDLED w' /\
       w_pdev w' = with_command
                     (Z.lor (command (w_pdev w)) PCI_COMMAND_INTX_DISABLE)
                     (w_pdev w) /\
       Z.testbit (command (w_pdev w')) 10 = true /\
       w_trace w' = w_trace w /\ signals (w_trace w') = signals (w_trace w) /\
       w_gdev w' = w_gdev w /\ w_irqs w' = w_irqs w /\ w_uio w' = w_uio w).
Proof.
  intros Hg. unfold irqhandler, pci_check_and_mask_intx. unfold_monad.
  rewrite Hg. split; intros Hbit; rewrite Hbit; simpl.
  - reflexivity.
  - eexists. split; [reflexivity|]. simpl.
    split_and!; try reflexivity; try assumption. apply testbit_intx_disable.
Qed.

(** The witness: the claimed legacy device with its interrupt pending. *)
Lemma irqhandler_checks_and_masks_witness :
  exists w',
    irqhandler (Example.claimed_legacy true) = Ok IRQ_HANDLED w' /\
    command (w_pdev w') = 1024 /\
    w_trace w' = [].
Proof.
  destruct (irqhandler_checks_and_masks (Example.claimed_legacy true)
              Example.gdev_legacy) as [_ Hset]; [reflexivity|].
  destruct Hset as (w' & Hrun & Hpdev & _ & Htr & _); [reflexivity|].
  exists w'. split; [exact Hrun|]. split; [now rewrite Hpdev | exact Htr].
Defined.

(** ** Claiming the device *)

Lemma with_enable_cnt_undo p :
  with_enable_cnt (enable_cnt (with_enable_cnt (enable_cnt p + 1) p) - 1)
    (with_enable_cnt (enable_cnt p + 1) p) = p.
Proof.
  destruct p. unfold with_enable_cnt. simpl. f_equal. lia.
Qed.

(** C8.  A device that reports a legacy line and does not support
    masking at the device, once enabled at the bus level, is refused:
    [probe] returns -ENODEV.  It has called [pci_enable_device] and then
    [pci_disable_device] and nothing else: the device is as it was before
    the claim, no driver object was allocated, nothing was registered. *)
Theorem probe_refuses_unmaskable_legacy K w :
  plat_enable_device K = 0 ->
  irq (w_pdev w) <> 0 ->
  intx_mask_supported (w_pdev w) = false ->
  exists w',
    probe K w = Ok (- ENODEV) w' /\
    w_pdev w' = w_pdev w /\
    w_gdev w' = w_gdev w /\
    w_uio w' = w_uio w /\
    w_irqs w' = w_irqs w /\
    w_trace w' = w_trace w ++ [Ev_pci_enable_device; Ev_pci_disable_device].
Proof.
  intros Hen Hirq Hmask.
  unfold probe, pci_enable_device, pci_disable_device, pci_intx_mask_supported.
  unfold_monad. rewrite Hen. simpl. rewrite Hmask.
  destruct (Z.eqb_spec (irq (w_pdev w)) 0) as [|_]; [contradiction|]. simpl.
  eexists. split; [reflexivity|]. simpl.
  split_and!; try reflexivity.
  - apply with_enable_cnt_undo.
  - now rewrite <- app_assoc.
Qed.

(** The witness: the unclaimed device on legacy line 11 without masking
    support. *)
Lemma probe_refuses_unmaskable_legacy_witness :
  exists w',
    probe Example.K (Example.unclaimed (Example.pdev_legacy false false))
      = Ok (- ENODEV) w' /\
    w_pdev w' = Example.pdev_legacy false false /\
    w_gdev w' = None.
Proof.
  destruct (probe_refuses_unmaskable_legacy Example.K
              (Example.unclaimed (Example.pdev_legacy false false)))
    as (w' & Hrun & Hpdev & Hgdev & _); [reflexivity | simpl; lia | reflexivity |].
  exists w'. split_and!; assumption.
Defined.

(** ** The vector table allocator *)

Lemma number_entries_length i es : length (number_entries i es) = length es.
Proof. revert i. induction es as [|e es IH]; intros i; simpl; [|rewrite IH]; reflexivity. Qed.

Lemma number_entries_lookup es : forall i k e,
  es !! k = Some e ->
  number_entries i es !! k
    = Some {| vector := vector e; entry := (i + Z.of_nat k) mod 2 ^ 16 |}.
Proof.
  induction es as [|e0 es IH]; intros i k e Hk; [discriminate|].
  destruct k as [|k]; simpl in *.
  - inversion Hk; subst. now rewrite Z.add_0_r.
  - rewrite (IH (i + 1) k e Hk). do 3 f_equal. lia.
Qed.

(** The numbering loop, started at index [k] with [n] iterations left on a
    table of [k + n] entries, numbers the entries from [k] on. *)
Lemma init_entries_loop_numbers n : forall k w g es,
  w_gdev w = Some g -> entries (msix_info g) = Some es ->
  length es = (k + n)%nat ->
  init_entries_loop n (Z.of_nat k) w
    = Ok tt (world_with_msix w g
               {| entries := Some (take k es
                                   ++ number_entries (Z.of_nat k) (drop k es));
                  evts := evts (msix_info g);
                  nvecs := nvecs (msix_info g) |}).
Proof.
  induction n as [|n IH]; intros k w g es Hg Hes Hlen.
  - simpl. unfold ret, world_with_msix.
    rewrite drop_ge, app_nil_r, take_ge by lia.
    destruct w as [p og t u tr], g as [inf [oes ss nv]]. simpl in *.
    now subst.
  - destruct (lookup_lt_is_Some_2 es k) as [e He]; [lia|].
    simpl. unfold entries_store_entry at 1. unfold_monad.
    rewrite Hg, Hes, lookupZ_of_nat, He, Hg, Nat2Z.id.
    replace (Z.of_nat k + 1) with (Z.of_nat (S k)) by lia.
    set (e' := {| vector := vector e; entry := Z.of_nat k mod 2 ^ 16 |}).
    rewrite (IH (S k) _ {| info := info g;
                           msix_info := {| entries := Some (<[k := e']> es);
                                           evts := evts (msix_info g);
                                           nvecs := nvecs (msix_info g) |} |}
                (<[k := e']> es)); try reflexivity.
    + unfold world_with_msix, set_gdev. simpl. do 5 f_equal.
      rewrite (take_S_r _ _ e') by (apply list_lookup_insert_eq; lia).
      rewrite take_insert_ge, drop_insert_lt by lia.
      rewrite (drop_S es e k He). simpl.
      rewrite <- app_assoc. simpl. do 4 f_equal. lia.
    + rewrite length_insert. lia.
Qed.

Lemma fmap_number_replicate_lookup K n k :
  (k < n)%nat ->
  (msix_fill K <$> number_entries 0 (replicate n zero_entry)) !! k
    = Some {| vector := plat_msix_vector K (Z.of_nat k mod 2 ^ 16);
              entry := Z.of_nat k mod 2 ^ 16 |}.
Proof.
  intros Hk. rewrite list_lookup_fmap.
  rewrite (number_entries_lookup _ 0 k zero_entry)
    by now apply lookup_replicate_2.
  reflexivity.
Qed.

(** The table that a granted allocation of [n] vectors builds. *)
Lemma pci_generic_init_msix_granted K w g :
  let N := plat_msix_vec_count K in
  w_gdev w = Some g -> 0 < N ->
  plat_kzalloc K ((N * (sizeof_msix_entry + sizeof_eventfd_ctx_ptr)) mod 2 ^ 64)
    = true ->
  N <= plat_msix_avail K ->
  pci_generic_init_msix K w
    = Ok 0 (set_pdev (with_msix true (w_pdev w))
              (log (Ev_pci_enable_msix_exact N)
                 (world_with_msix w g
                    {| entries := Some (msix_fill K <$>
                         number_entries 0 (replicate (Z.to_nat N) zero_entry));
                       evts := replicate (Z.to_nat N) None;
                       nvecs := N |}))).
Proof.
  intros N Hg HN Hk Hav. unfold pci_generic_init_msix. fold N.
  unfold bind at 1. unfold deref_gdev at 1. rewrite Hg.
  destruct (Z.eqb_spec N 0); [lia|]. rewrite Hk.
  change (negb true) with false. cbv beta iota.
  unfold bind at 1. unfold put_msix at 1. rewrite Hg.
  unfold bind at 1.
  rewrite (init_entries_loop_numbers (Z.to_nat N) 0 _
             {| info := info g;
                msix_info := {| entries := Some (replicate (Z.to_nat N) zero_entry);
                                evts := replicate (Z.to_nat N) None;
                                nvecs := N |} |}
             (replicate (Z.to_nat N) zero_entry));
    [| reflexivity | reflexivity | now rewrite length_replicate].
  simpl. rewrite drop_0.
  unfold pci_enable_msix_exact. unfold_monad. simpl.
  destruct (Z.ltb_spec N 1); [lia|].
  destruct (Z.ltb_spec (plat_msix_avail K) N); [lia|]. simpl.
  rewrite number_entries_length, length_replicate, Z2Nat.id by lia.
  rewrite Z.ltb_irrefl. simpl.
  rewrite take_ge, drop_ge, app_nil_r
    by (rewrite number_entries_length, length_replicate; lia).
  reflexivity.
Qed.

(** An allocation that the platform rejects for want of vectors frees the
    table and leaves the device as it was. *)
Lemma pci_generic_init_msix_rejected K w g :
  let N := plat_msix_vec_count K in
  w_gdev w = Some g -> 0 < N ->
  plat_kzalloc K ((N * (sizeof_msix_entry + sizeof_eventfd_ctx_ptr)) mod 2 ^ 64)
    = true ->
  plat_msix_avail K < N ->
  pci_generic_init_msix K w
    = Ok (- ENOSPC)
        (log Ev_kfree_entries
           (log (Ev_pci_enable_msix_exact N)
              (world_with_msix w g
                 {| entries := None;
                    evts := replicate (Z.to_nat N) None;
                    nvecs := N |}))).
Proof.
  intros N Hg HN Hk Hav. unfold pci_generic_init_msix. fold N.
  unfold bind at 1. unfold deref_gdev at 1. rewrite Hg.
  destruct (Z.eqb_spec N 0); [lia|]. rewrite Hk.
  change (negb true) with false. cbv beta iota.
  unfold bind at 1. unfold put_msix at 1. rewrite Hg.
  unfold bind at 1.
  rewrite (init_entries_loop_numbers (Z.to_nat N) 0 _
             {| info := info g;
                msix_info := {| entries := Some (replicate (Z.to_nat N) zero_entry);
                                evts := replicate (Z.to_nat N) None;
                                nvecs := N |} |}
             (replicate (Z.to_nat N) zero_entry));
    [| reflexivity | reflexivity | now rewrite length_replicate].
  simpl. rewrite drop_0.
  unfold pci_enable_msix_exact, kfree_entries, set_entries. unfold_monad. simpl.
  destruct (Z.ltb_spec N 1); [lia|].
  destruct (Z.ltb_spec (plat_msix_avail K) N); [|lia]. simpl.
  reflexivity.
Qed.

(** C5.  For a vector count [N > 0] reported by the hardware (and the
    table's memory granted), [pci_generic_init_msix] requests exactly [N]
    vectors, once.  If the platform can grant fewer than [N] the whole
    allocation fails: the table is freed, its pointer reset to NULL, and
    the device is as it was, vector delivery included.  If the platform
    can grant [N] the allocation returns 0 with vector delivery enabled and
    a table of exactly [N] slots, numbered in order, every handle empty. *)
Theorem init_msix_all_or_nothing K w g :
  let N := plat_msix_vec_count K in
  w_gdev w = Some g -> 0 < N ->
  plat_kzalloc K ((N * (sizeof_msix_entry + sizeof_eventfd_ctx_ptr)) mod 2 ^ 64)
    = true ->
  (plat_msix_avail K < N ->
     exists w',
       pci_generic_init_msix K w = Ok (- ENOSPC) w' /\
       w_trace w' = w_trace w ++ [Ev_pci_enable_msix_exact N; Ev_kfree_entries] /\
       table_entries w' = None /\
       w_pdev w' = w_pdev w /\
       w_irqs w' = w_irqs w) /\
  (N <= plat_msix_avail K ->
     exists w' es,
       pci_generic_init_msix K w = Ok 0 w' /\
       w_trace w' = w_trace w ++ [Ev_pci_enable_msix_exact N] /\
       msix_enabled (w_pdev w') = true /\
       table_nvecs w' = Some N /\
       table_entries w' = Some es /\
       length es = Z.to_nat N /\
       (forall k, (k < Z.to_nat N)%nat ->
          es !! k = Some {| vector := plat_msix_vector K (Z.of_nat k mod 2 ^ 16);
                            entry := Z.of_nat k mod 2 ^ 16 |}) /\
       (forall k, (k < Z.to_nat N)%nat -> slot w' k = Some None) /\
       (forall k, (Z.to_nat N <= k)%nat -> slot w' k = None) /\
       w_irqs w' = w_irqs w).
Proof.
  intros N Hg HN Hk. split; intros Hav.
  - rewrite (pci_generic_init_msix_rejected K w g) by assumption. fold N.
    eexists. split; [reflexivity|]. simpl.
    split_and!; try reflexivity. now rewrite <- app_assoc.
  - rewrite (pci_generic_init_msix_granted K w g) by assumption. fold N.
    eexists. eexists. split; [reflexivity|]. simpl.
    split_and!; try reflexivity.
    + now rewrite length_fmap, number_entries_length, length_replicate.
    + intros k Hlt. now apply fmap_number_replicate_lookup.
    + intros k Hlt. unfold slot. simpl. now apply lookup_replicate_2.
    + intros k Hge. unfold slot. simpl. now apply lookup_replicate_None.
Qed.

(** The witness: the four-vector device on the platform that can grant
    eight vectors, its driver object freshly allocated. *)
Lemma init_msix_all_or_nothing_witness :
  exists w' es,
    pci_generic_init_msix Example.K
      (set_gdev (Some zero_gdev) (Example.unclaimed Example.pdev_msix))
      = Ok 0 w' /\
    table_entries w' = Some es /\ length es = 4%nat /\
    slot w' 0 = Some None /\ slot w' 3 = Some None /\ slot w' 4 = None.
Proof.
  destruct (init_msix_all_or_nothing Example.K
              (set_gdev (Some zero_gdev) (Example.unclaimed Example.pdev_msix))
              zero_gdev) as [_ Hgrant];
    [reflexivity | reflexivity | reflexivity |].
  destruct Hgrant as (w' & es & Hrun & _ & _ & _ & Hes & Hlen & _ & Hin & Hout & _);
    [simpl; lia|].
  exists w', es. split_and!; try assumption.
  - apply Hin. simpl. lia.
  - apply Hin. simpl. lia.
  - apply Hout. simpl. lia.
Defined.

(** C4, as stated, fails.  The device has no legacy line, reports four
    vectors, and the platform can grant two: the allocation is rejected
    (the world has no table and vector delivery is disabled), and [probe]
    completes the claim, returning 0 with the device registered. *)
Lemma probe_returns_allocation_error_counterexample :
  irq Example.pdev_msix = 0 /\
  plat_msix_avail Example.K_scarce < plat_msix_vec_count Example.K_scarce /\
  pci_generic_init_msix Example.K_scarce
    (set_gdev (Some zero_gdev) (Example.unclaimed Example.pdev_msix))
    = Ok (- ENOSPC)
        (log Ev_kfree_entries
           (log (Ev_pci_enable_msix_exact 4)
              (world_with_msix (Example.unclaimed Example.pdev_msix) zero_gdev
                 {| entries := None; evts := [None; None; None; None];
                    nvecs := 4 |}))) /\
  exists w',
    probe Example.K_scarce (Example.unclaimed Example.pdev_msix) = Ok 0 w' /\
    w_uio w' = true /\
    drvdata (w_pdev w') = true /\
    msix_enabled (w_pdev w') = false /\
    table_entries w' = None /\
    w_trace w' = [Ev_pci_enable_device; Ev_pci_enable_msix_exact 4;
                  Ev_kfree_entries; Ev_uio_register_device].
Proof.
  split; [reflexivity|]. split; [simpl; lia|]. split; [vm_compute; reflexivity|].
  eexists. split; [vm_compute; reflexivity|].
  split_and!; reflexivity.
Qed.

(** C4, amended.  When the device reports no legacy line and the
    platform rejects the requested vector count, [probe] discards the
    error of the allocation and goes on to register the device; its result
    is the result of [uio_register_device].  If that succeeds the claim
    completes with 0: the device is registered and bound, without a vector
    table and with vector delivery as it was.  If it fails, the driver
    object is freed, the device disabled again, and that error returned. *)
Theorem probe_discards_allocation_error K w :
  let N := plat_msix_vec_count K in
  plat_enable_device K = 0 ->
  irq (w_pdev w) = 0 ->
  plat_kzalloc_gdev K = true ->
  0 < N ->
  plat_kzalloc K ((N * (sizeof_msix_entry + sizeof_eventfd_ctx_ptr)) mod 2 ^ 64)
    = true ->
  plat_msix_avail K < N ->
  exists w',
    probe K w = Ok (plat_uio_register K) w' /\
    w_irqs w' = w_irqs w /\
    (plat_uio_register K = 0 ->
       w_uio w' = true /\
       drvdata (w_pdev w') = true /\
       table_entries w' = None /\
       msix_enabled (w_pdev w') = msix_enabled (w_pdev w) /\
       enable_cnt (w_pdev w') = enable_cnt (w_pdev w) + 1 /\
       w_trace w' = w_trace w ++
         [Ev_pci_enable_device; Ev_pci_enable_msix_exact N;
          Ev_kfree_entries; Ev_uio_register_device]) /\
    (plat_uio_register K <> 0 ->
       w_gdev w' = None /\
       w_pdev w' = w_pdev w /\
       w_uio w' = w_uio w /\
       w_trace w' = w_trace w ++
         [Ev_pci_enable_device; Ev_pci_enable_msix_exact N;
          Ev_kfree_entries; Ev_uio_register_device;
          Ev_kfree_gdev; Ev_pci_disable_device]).
Proof.
  intros N Hen Hirq Hkg HN Hk Hav.
  destruct w as [p og t u tr]. destruct p as [pirq cnt msi msix bm cmd st ims dd].
  simpl in Hirq. subst pirq.
  unfold probe, pci_enable_device, pci_intx_mask_supported, kzalloc_gdev,
    upd_info.
  unfold_monad. rewrite Hen, Hkg. simpl.
  erewrite (pci_generic_init_msix_rejected K);
    [| reflexivity | exact HN | exact Hk | exact Hav]. fold N.
  unfold uio_register_device, kfree_gdev, pci_disable_device, pci_set_drvdata,
    kfree_entries.
  unfold_monad. simpl.
  destruct (Z.eqb_spec (plat_uio_register K) 0) as [Hr|Hr]; simpl.
  - rewrite Hr. eexists. split; [reflexivity|]. simpl.
    split_and!; try reflexivity; [|intros; contradiction].
    intros _. split_and!; try reflexivity.
    now rewrite <- !app_assoc.
  - rewrite (proj2 (Z.eqb_neq _ _) Hr). simpl.
    eexists. split; [reflexivity|]. simpl.
    split_and!; try reflexivity; [intros; contradiction|].
    intros _. split_and!; try reflexivity.
    + unfold with_enable_cnt. simpl. f_equal. lia.
    + now rewrite <- !app_assoc.
Qed.

(** The witness: the input of the counterexample. *)
Lemma probe_discards_allocation_error_witness :
  exists w',
    probe Example.K_scarce (Example.unclaimed Example.pdev_msix) = Ok 0 w' /\
    w_uio w' = true /\
    table_entries w' = None.
Proof.
  destruct (probe_discards_allocation_error Example.K_scarce
              (Example.unclaimed Example.pdev_msix))
    as (w' & Hrun & _ & Hok & _);
    [reflexivity | reflexivity | reflexivity | simpl; lia | reflexivity
    | simpl; lia |].
  destruct Hok as (Huio & _ & Htab & _); [reflexivity|].
  exists w'. split_and!; assumption.
Defined.

(** ** Teardown *)

Lemma after_calls_nil w g :
  w_gdev w = Some g -> after_calls w g (evts (msix_info g)) [] = w.
Proof.
  intros Hg. destruct w as [p og t u tr], g as [inf [oes ss nv]].
  simpl in Hg. subst og. unfold after_calls. simpl. now rewrite app_nil_r.
Qed.

Lemma after_calls_twice w g ss1 evs1 ss2 evs2 :
  after_calls (after_calls w g ss1 evs1)
    {| info := info g;
       msix_info := {| entries := entries (msix_info g); evts := ss1;
                       nvecs := nvecs (msix_info g) |} |} ss2 evs2
  = after_calls w g ss2 (evs1 ++ evs2).
Proof.
  unfold after_calls. simpl. now rewrite irqs_after_app, app_assoc.
Qed.

(** One iteration of the loop of [remove] tears the slot down and leaves
    it empty. *)
Lemma remove_slot_tears_down k w g es e s :
  w_gdev w = Some g -> entries (msix_info g) = Some es ->
  es !! k = Some e -> evts (msix_info g) !! k = Some s ->
  remove_slot (Z.of_nat k) w
    = Ok tt (after_calls w g (<[k := None]> (evts (msix_info g)))
               (slot_teardown e s)).
Proof.
  intros Hg Hes He Hs.
  unfold remove_slot, entries_at, evts_at, evts_store, free_irq,
    eventfd_ctx_put.
  unfold_monad. rewrite Hg, Hes, lookupZ_of_nat, He, Hg, lookupZ_of_nat, Hs.
  destruct s as [old|]; simpl.
  - rewrite Hg, lookupZ_of_nat, Hs, Nat2Z.id. simpl.
    unfold after_calls, log, set_irqs, set_gdev. simpl.
    rewrite Hg, <- app_assoc. reflexivity.
  - rewrite (list_insert_id _ _ _ Hs). now rewrite after_calls_nil.
Qed.

Lemma table_teardown_drop es ss k e s :
  es !! k = Some e -> ss !! k = Some s ->
  table_teardown (drop k es) (drop k ss)
    = slot_teardown e s ++ table_teardown (drop (S k) es) (drop (S k) ss).
Proof.
  intros He Hs. now rewrite (drop_S es e k He), (drop_S ss s k Hs).
Qed.

(** The loop of [remove], started at index [k] with [n] iterations left on
    a table of [k + n] slots, tears down the slots from [k] on, one after
    the other, and leaves them empty. *)
Lemma remove_loop_tears_down n : forall k w g es,
  w_gdev w = Some g -> entries (msix_info g) = Some es ->
  length es = (k + n)%nat -> length (evts (msix_info g)) = (k + n)%nat ->
  remove_loop n (Z.of_nat k) w
    = Ok tt (after_calls w g
               (take k (evts (msix_info g)) ++ replicate n None)
               (table_teardown (drop k es) (drop k (evts (msix_info g))))).
Proof.
  induction n as [|n IH]; intros k w g es Hg Hes Hlen Hlen'.
  - simpl. rewrite !drop_ge, app_nil_r, take_ge by lia. simpl.
    now rewrite after_calls_nil.
  - destruct (lookup_lt_is_Some_2 es k) as [e He]; [lia|].
    destruct (lookup_lt_is_Some_2 (evts (msix_info g)) k) as [s Hs]; [lia|].
    simpl. unfold bind at 1.
    rewrite (remove_slot_tears_down k w g es e s) by assumption.
    replace (Z.of_nat k + 1) with (Z.of_nat (S k)) by lia.
    rewrite (IH (S k) _
               {| info := info g;
                  msix_info := {| entries := entries (msix_info g);
                                  evts := <[k := None]> (evts (msix_info g));
                                  nvecs := nvecs (msix_info g) |} |} es);
      [| reflexivity | assumption | lia | simpl; rewrite length_insert; lia].
    simpl evts. rewrite after_calls_twice.
    rewrite (take_S_r _ _ None) by (apply list_lookup_insert_eq; lia).
    rewrite take_insert_ge, drop_insert_lt by lia.
    rewrite <- (table_teardown_drop es _ k e s He Hs).
    now rewrite <- app_assoc.
Qed.

Lemma irq_effect_free_sub t irqn d irqn' d' :
  irq_effect t (Ev_free_irq irqn d) !! irqn' = Some d' -> t !! irqn' = Some d'.
Proof.
  unfold irq_effect. destruct (t !! irqn) as [d0|] eqn:Ht; [|easy].
  destruct (decide (d0 = d)); [|easy].
  intros H. apply lookup_delete_Some in H. tauto.
Qed.

(** Tearing down every slot of a table that owns all the actions leaves
    the IRQ core's table empty. *)
Lemma teardown_clears_owned es : forall ss t,
  actions_owned t es ss ->
  irqs_after (table_teardown es ss) t = ∅.
Proof.
  induction es as [|e es IH]; intros ss t Hown.
  - simpl. apply map_empty. intros irqn.
    destruct (t !! irqn) as [d|] eqn:Ht; [|reflexivity].
    destruct (Hown irqn d Ht) as (i & e & He & _). now rewrite lookup_nil in He.
  - destruct ss as [|s ss].
    + simpl. apply map_empty. intros irqn.
      destruct (t !! irqn) as [d|] eqn:Ht; [|reflexivity].
      destruct (Hown irqn d Ht) as (i & e' & _ & _ & Hs).
      now rewrite lookup_nil in Hs.
    + simpl. rewrite irqs_after_app. apply IH.
      intros irqn d Ht.
      assert (Ht0 : t !! irqn = Some d).
      { destruct s as [old|]; [|exact Ht].
        unfold irqs_after in Ht. simpl in Ht.
        now apply irq_effect_free_sub in Ht. }
      destruct (Hown irqn d Ht0) as ([|i] & e' & He' & Hv & Hs).
      * exfalso. simpl in He', Hs. inversion He'; subst e'.
        inversion Hs; subst s. subst irqn.
        now apply (irqs_after_teardown_not_old e d t).
      * exists i, e'. simpl in He', Hs. auto.
Qed.

Lemma actions_owned_b_sound t es ss :
  actions_owned_b t es ss = true -> actions_owned t es ss.
Proof.
  intros Hb irqn d Ht. unfold actions_owned_b in Hb.
  rewrite forallb_forall in Hb.
  assert (Hin : In (irqn, d) (map_to_list t))
    by (apply list_elem_of_In, elem_of_map_to_list; exact Ht).
  specialize (Hb _ Hin). unfold owns_action in Hb.
  apply existsb_exists in Hb. destruct Hb as ([e s] & Hin' & Hp).
  simpl in Hp. apply andb_true_iff in Hp. destruct Hp as [Hv Hs].
  apply Z.eqb_eq in Hv. apply bool_decide_eq_true in Hs.
  apply list_elem_of_In, list_elem_of_lookup in Hin'. destruct Hin' as [i Hi].
  apply lookup_zip_with_Some in Hi.
  destruct Hi as (e' & s' & Heq & He & Hs'). inversion Heq; subst e' s'.
  exists i, e. rewrite <- Hs. auto.
Qed.

Lemma generic_handle_irq_no_action hdl irqn w :
  w_irqs w = ∅ -> generic_handle_irq hdl irqn w = Ok IRQ_NONE w.
Proof.
  intros Hw. unfold generic_handle_irq. now rewrite Hw, lookup_empty.
Qed.

(** C6, as stated, fails.  With slots 0 and 2 bound, [remove] releases
    the handle of slot 0 before it deregisters the interrupt path of slot
    2: the deregistrations do not all come first. *)
Lemma remove_frees_all_before_puts_counterexample :
  exists w',
    remove Example.w_bound02 = Ok tt w' /\
    w_trace w' = [Ev_uio_unregister_device;
                  Ev_free_irq 40 (Ctx 1); Ev_eventfd_ctx_put (Ctx 1);
                  Ev_free_irq 42 (Ctx 2); Ev_eventfd_ctx_put (Ctx 2);
                  Ev_pci_disable_msix; Ev_kfree_entries;
                  Ev_pci_disable_device; Ev_kfree_gdev] /\
    frees_before_puts (w_trace w') = false.
Proof.
  eexists. split; [vm_compute; reflexivity|].
  split; reflexivity.
Qed.

(** In the teardown of a table every release of a handle comes right
    after the deregistration of an interrupt path closed over it. *)
Lemma table_teardown_put_follows_free es : forall ss l1 d l2,
  table_teardown es ss = l1 ++ Ev_eventfd_ctx_put d :: l2 ->
  exists l0 irqn, l1 = l0 ++ [Ev_free_irq irqn d].
Proof.
  induction es as [|e es IH]; intros ss l1 d l2 Heq.
  - simpl in Heq. now destruct l1.
  - destruct ss as [|[old|] ss]; simpl in Heq.
    + now destruct l1.
    + destruct l1 as [|a [|b l1]]; simpl in Heq.
      * discriminate.
      * inversion Heq; subst. now exists [], (vector e).
      * inversion Heq as [[Ha Hb Hrest]].
        destruct (IH ss l1 d l2 Hrest) as (l0 & irqn & ->).
        now exists (Ev_free_irq (vector e) old :: Ev_eventfd_ctx_put old :: l0), irqn.
    + now apply (IH ss l1 d l2).
Qed.

(** [remove] on a claimed device with a vector table. *)
Lemma remove_vector_table w g es :
  drvdata (w_pdev w) = true ->
  w_gdev w = Some g -> entries (msix_info g) = Some es ->
  nvecs (msix_info g) = Z.of_nat (length es) ->
  length (evts (msix_info g)) = length es ->
  let calls := [Ev_uio_unregister_device]
               ++ table_teardown es (evts (msix_info g))
               ++ [Ev_pci_disable_msix; Ev_kfree_entries;
                   Ev_pci_disable_device; Ev_kfree_gdev] in
  remove w
    = Ok tt {| w_pdev := with_enable_cnt (enable_cnt (w_pdev w) - 1)
                           (with_msix false (w_pdev w));
               w_gdev := None;
               w_irqs := irqs_after calls (w_irqs w);
               w_uio := false;
               w_trace := w_trace w ++ calls |}.
Proof.
  intros Hdd Hg Hes Hn Hlen calls.
  destruct w as [p og t u tr], g as [inf [oes ss nv]].
  simpl in *. subst og oes nv.
  unfold remove, pci_get_drvdata, uio_unregister_device.
  unfold_monad. simpl. rewrite Hdd. simpl. rewrite Nat2Z.id.
  change 0 with (Z.of_nat 0).
  erewrite (remove_loop_tears_down (length es) 0);
    [| reflexivity | reflexivity | reflexivity | simpl; lia ].
  rewrite !drop_0. simpl.
  unfold pci_disable_msix, kfree_entries, set_entries, pci_disable_device,
    kfree_gdev.
  unfold_monad. simpl.
  f_equal. apply world_eq; simpl; try reflexivity.
  - unfold calls. now rewrite !irqs_after_app.
  - unfold calls. now rewrite <- !app_assoc.
Qed.

(** C6, amended.  [remove] visits the slots in index order and tears
    each bound slot down before it visits the next: it deregisters the
    slot's interrupt path and right after releases the slot's handle.
    Every release thus follows the deregistration of its own interrupt
    path, though not those of later slots.  When the table owns all the
    registered actions, no action is registered once [remove] has
    returned: an interrupt on any line runs no handler, signals nothing
    and leaves the world as it is. *)
Theorem remove_tears_down_slot_by_slot w g es :
  drvdata (w_pdev w) = true ->
  w_gdev w = Some g -> entries (msix_info g) = Some es ->
  nvecs (msix_info g) = Z.of_nat (length es) ->
  length (evts (msix_info g)) = length es ->
  actions_owned (w_irqs w) es (evts (msix_info g)) ->
  exists w',
    remove w = Ok tt w' /\
    w_trace w' = w_trace w ++ [Ev_uio_unregister_device]
                   ++ table_teardown es (evts (msix_info g))
                   ++ [Ev_pci_disable_msix; Ev_kfree_entries;
                       Ev_pci_disable_device; Ev_kfree_gdev] /\
    (forall l1 d l2,
       table_teardown es (evts (msix_info g))
         = l1 ++ Ev_eventfd_ctx_put d :: l2 ->
       exists l0 irqn, l1 = l0 ++ [Ev_free_irq irqn d]) /\
    w_irqs w' = ∅ /\
    (forall irqn,
       generic_handle_irq uio_msix_handler irqn w' = Ok IRQ_NONE w') /\
    w_gdev w' = None /\
    msix_enabled (w_pdev w') = false.
Proof.
  intros Hdd Hg Hes Hn Hlen Hown.
  rewrite (remove_vector_table w g es) by assumption. cbv zeta.
  set (w' := {| w_pdev := _ |}).
  assert (Hirqs : w_irqs w' = ∅).
  { unfold w'. simpl w_irqs. rewrite !irqs_after_app.
    change (irq_effect (w_irqs w) Ev_uio_unregister_device) with (w_irqs w).
    rewrite (teardown_clears_owned es _ _ Hown). reflexivity. }
  exists w'. split_and!; try reflexivity.
  - apply table_teardown_put_follows_free.
  - exact Hirqs.
  - intros irqn. now apply generic_handle_irq_no_action.
Qed.

(** The witness: the input of the counterexample, slots 0 and 2 bound. *)
Lemma remove_tears_down_slot_by_slot_witness :
  exists w',
    remove Example.w_bound02 = Ok tt w' /\
    w_irqs w' = ∅ /\
    generic_handle_irq uio_msix_handler 40 w' = Ok IRQ_NONE w' /\
    generic_handle_irq uio_msix_handler 42 w' = Ok IRQ_NONE w'.
Proof.
  destruct (remove_tears_down_slot_by_slot Example.w_bound02
              (Example.gdev_msix [Some (Ctx 1); None; Some (Ctx 2); None])
              Example.table)
    as (w' & Hrun & _ & _ & Hirqs & Hsig & _);
    [reflexivity | reflexivity | reflexivity | reflexivity | reflexivity
    | apply actions_owned_b_sound; vm_compute; reflexivity |].
  exists w'. split_and!; [assumption | assumption | apply Hsig | apply Hsig].
Defined.

(** ** The control surface and the release hook *)

(** The ioctl passes the caller's descriptor and index on unchanged. *)
Lemma uio_msi_ioctl_binds K cmd data w :
  uio_msi_ioctl K cmd cmd (Some data) w
    = map_msix_eventfd K (data_fd data) (data_vector data) w.
Proof. unfold uio_msi_ioctl. now rewrite Z.eqb_refl. Qed.

Lemma uio_msi_ioctl_other_command K c cmd arg w :
  cmd <> c -> uio_msi_ioctl K c cmd arg w = Ok (- EOPNOTSUPP) w.
Proof.
  intros Hne. unfold uio_msi_ioctl.
  destruct (Z.eqb_spec cmd c); [contradiction | reflexivity].
Qed.

(** [release] disables bus-mastering and does nothing else. *)
Lemma release_clears_master w g :
  w_gdev w = Some g ->
  release w = Ok 0 (set_pdev (with_busmaster false (w_pdev w))
                      (log Ev_pci_clear_master w)).
Proof.
  intros Hg. unfold release, pci_clear_master. unfold_monad. now rewrite Hg.
Qed.

(** When the bus-level enable fails [probe] returns its error at once. *)
Lemma probe_enable_failure K w :
  plat_enable_device K <> 0 ->
  probe K w = Ok (plat_enable_device K) (log Ev_pci_enable_device w).
Proof.
  intros Hne. unfold probe, pci_enable_device. unfold_monad.
  rewrite (proj2 (Z.eqb_neq _ _) Hne). simpl.
  now rewrite (proj2 (Z.eqb_neq _ _) Hne).
Qed.

(** ** Two scenarios, end to end *)

(** A device exposing 4 vectors is claimed; vectors 0 and 2 are bound to
    contexts 1 and 2; vector 0 fires; vector 0 is rebound to context 3;
    vector 0 fires again.  Context 1 is signalled once, then released
    once, then context 3 is signalled; context 2 never is. *)
Example scenario_vector_table :
  let w1 := Example.run (probe Example.K) (Example.unclaimed Example.pdev_msix) in
  let w2 := Example.run (map_msix_eventfd Example.K 3 0) w1 in
  let w3 := Example.run (map_msix_eventfd Example.K 4 2) w2 in
  let w4 := Example.run (generic_handle_irq uio_msix_handler 40) w3 in
  let w5 := Example.run (map_msix_eventfd Example.K 5 0) w4 in
  let w6 := Example.run (generic_handle_irq uio_msix_handler 40) w5 in
  (slot w1 <$> [0; 1; 2; 3; 4]%nat) = [Some None; Some None; Some None; Some None; None] /\
  w_trace w6 =
    [Ev_pci_enable_device; Ev_pci_enable_msix_exact 4; Ev_uio_register_device;
     Ev_eventfd_ctx_fdget 3; Ev_request_irq 40 (Ctx 1) 0;
     Ev_eventfd_ctx_fdget 4; Ev_request_irq 42 (Ctx 2) 0;
     Ev_eventfd_signal (Ctx 1);
     Ev_free_irq 40 (Ctx 1); Ev_eventfd_ctx_put (Ctx 1);
     Ev_eventfd_ctx_fdget 5; Ev_request_irq 40 (Ctx 3) 0;
     Ev_eventfd_signal (Ctx 3)] /\
  signals (w_trace w6) = [Ctx 1; Ctx 3].
Proof. vm_compute. split_and!; reflexivity. Qed.

(** A legacy-line device is claimed; its line fires with the pending bit
    set: the handler masks the device and reports the interrupt handled,
    and signals nothing itself. *)
Example scenario_legacy_line :
  let w1 := Example.run (probe Example.K)
              (Example.unclaimed (Example.pdev_legacy true true)) in
  exists w2,
    irqhandler w1 = Ok IRQ_HANDLED w2 /\
    command (w_pdev w2) = PCI_COMMAND_INTX_DISABLE /\
    signals (w_trace w2) = [] /\
    (info <$> w_gdev w2)
      = Some {| name := "uio_pci_generic"; version := "0.01.0";
                info_irq := 11; irq_flags := IRQF_SHARED;
                handler := Some Handler_irqhandler;
                info_release := Some Release_release;
                ioctl := Some Ioctl_uio_msi_ioctl |}.
Proof. eexists. vm_compute. split_and!; reflexivity. Qed.

(** * Further properties of the driver *)

(** ** The ioctl and the range test *)

(** X1.  An ioctl that binds (the command is [UIO_MSIX_DATA], the copy
    from user space succeeded, the descriptor is not negative) with an
    index at or above [nvecs] returns -EINVAL and leaves the world exactly
    as it was.  On a legacy binding, whose [nvecs] is 0, that is every
    non-negative index. *)
Theorem ioctl_rejects_index_past_table K c data w g :
  0 <= data_fd data ->
  nvecs (msix_info g) <= data_vector data ->
  w_gdev w = Some g ->
  uio_msi_ioctl K c c (Some data) w = Ok (- EINVAL) w.
Proof.
  intros Hfd Hvec Hg. rewrite uio_msi_ioctl_binds.
  now apply (map_msix_eventfd_above K _ _ w g).
Qed.

(** The witness: index 4 on the four-vector table, index 0 on the legacy
    binding. *)
Lemma ioctl_rejects_index_past_table_witness :
  uio_msi_ioctl Example.K 100 100 (Some {| data_fd := 3; data_vector := 4 |})
    Example.w_bound0 = Ok (- EINVAL) Example.w_bound0 /\
  uio_msi_ioctl Example.K 100 100 (Some {| data_fd := 3; data_vector := 0 |})
    (Example.claimed_legacy false) = Ok (- EINVAL) (Example.claimed_legacy false).
Proof.
  split.
  - apply (ioctl_rejects_index_past_table Example.K 100
             {| data_fd := 3; data_vector := 4 |} Example.w_bound0
             (Example.gdev_msix [Some (Ctx 1); None; None; None]));
      [simpl; lia | simpl; lia | reflexivity].
  - apply (ioctl_rejects_index_past_table Example.K 100
             {| data_fd := 3; data_vector := 0 |} (Example.claimed_legacy false)
             Example.gdev_legacy);
      [simpl; lia | simpl; lia | reflexivity].
Defined.



(** ** Binding and its failure paths *)

Lemma irqs_after_request_ok n d t :
  irqs_after [Ev_request_irq n d 0] t = <[n := d]> t.
Proof. reflexivity. Qed.

Lemma irqs_after_request_err n d err t :
  err <> 0 -> irqs_after [Ev_request_irq n d err] t = t.
Proof.
  intros Hne. unfold irqs_after. simpl. unfold irq_effect.
  now rewrite (proj2 (Z.eqb_neq _ _) Hne).
Qed.

(** X3.  The first bind of an empty slot deregisters nothing and
    releases nothing: its calls are the lookup and [request_irq], in that
    order.  It returns 0 with the handle in the slot and the interrupt
    path of the slot's line closed over it, the rest of the IRQ core's
    table untouched. *)
Theorem first_bind_only_registers K fd vec w g es e new :
  0 <= fd -> 0 <= vec < nvecs (msix_info g) ->
  w_gdev w = Some g -> entries (msix_info g) = Some es ->
  es !! Z.to_nat vec = Some e ->
  evts (msix_info g) !! Z.to_nat vec = Some None ->
  plat_fdget K fd = Some new ->
  plat_request_irq K (vector e) new = 0 ->
  exists w',
    map_msix_eventfd K fd vec w = Ok 0 w' /\
    w_trace w' = w_trace w ++ [Ev_eventfd_ctx_fdget fd;
                               Ev_request_irq (vector e) new 0] /\
    slot w' (Z.to_nat vec) = Some (Some new) /\
    w_irqs w' = <[vector e := new]> (w_irqs w) /\
    w_pdev w' = w_pdev w.
Proof.
  intros Hfd Hvec Hg Hes He Hs Hnew Hreq.
  rewrite (map_msix_eventfd_in_range K fd vec w g es e None) by assumption.
  cbv zeta. rewrite Hnew, Hreq. simpl.
  eexists. split; [reflexivity|]. split_and!; try reflexivity.
  rewrite slot_after_calls. apply list_lookup_insert_eq.
  eapply lookup_lt_Some; eassumption.
Qed.

(** The witness: slot 1 of the four-vector device, empty, is bound to
    descriptor 4. *)
Lemma first_bind_only_registers_witness :
  exists w',
    map_msix_eventfd Example.K 4 1 Example.w_bound0 = Ok 0 w' /\
    w_trace w' = [Ev_eventfd_ctx_fdget 4; Ev_request_irq 41 (Ctx 2) 0] /\
    slot w' 1 = Some (Some (Ctx 2)).
Proof.
  destruct (first_bind_only_registers Example.K 4 1 Example.w_bound0
              (Example.gdev_msix [Some (Ctx 1); None; None; None])
              Example.table {| vector := 41; entry := 1 |} (Ctx 2))
    as (w' & Hrun & Htr & Hslot & _);
    [lia | simpl; lia | reflexivity | reflexivity | reflexivity | reflexivity
    | reflexivity | reflexivity |].
  exists w'. split_and!; assumption.
Defined.

(** X4.  When [request_irq] fails, [map_msix_eventfd] returns its error
    and gives back the reference it has just taken: the last call is
    [eventfd_ctx_put] of the new handle.  Nothing is installed: the slot
    is empty afterwards, and the IRQ core's table is as the teardown of
    the old handle, if there was one, left it. *)
Theorem failed_registration_releases_new_handle K fd vec w g es e s new :
  0 <= fd -> 0 <= vec < nvecs (msix_info g) ->
  w_gdev w = Some g -> entries (msix_info g) = Some es ->
  es !! Z.to_nat vec = Some e ->
  evts (msix_info g) !! Z.to_nat vec = Some s ->
  plat_fdget K fd = Some new ->
  plat_request_irq K (vector e) new <> 0 ->
  exists w',
    map_msix_eventfd K fd vec w = Ok (plat_request_irq K (vector e) new) w' /\
    w_trace w' = w_trace w ++ slot_teardown e s
                   ++ [Ev_eventfd_ctx_fdget fd;
                       Ev_request_irq (vector e) new
                         (plat_request_irq K (vector e) new);
                       Ev_eventfd_ctx_put new] /\
    slot w' (Z.to_nat vec) = Some None /\
    w_irqs w' = irqs_after (slot_teardown e s) (w_irqs w) /\
    (forall j, j <> Z.to_nat vec -> slot w' j = slot w j).
Proof.
  intros Hfd Hvec Hg Hes He Hs Hnew Hreq.
  rewrite (map_msix_eventfd_in_range K fd vec w g es e s) by assumption.
  cbv zeta. rewrite Hnew. rewrite (proj2 (Z.eqb_neq _ _) Hreq).
  eexists. split; [reflexivity|]. split_and!.
  - simpl. now rewrite <- !app_assoc.
  - rewrite slot_after_calls. apply list_lookup_insert_eq.
    eapply lookup_lt_Some; eassumption.
  - simpl. rewrite !irqs_after_app.
    change [Ev_request_irq (vector e) new (plat_request_irq K (vector e) new);
            Ev_eventfd_ctx_put new]
      with ([Ev_request_irq (vector e) new (plat_request_irq K (vector e) new)]
            ++ [Ev_eventfd_ctx_put new]).
    rewrite irqs_after_app, (irqs_after_request_err _ _ _ _ Hreq).
    reflexivity.
  - intros j Hj. rewrite slot_after_calls. unfold slot. rewrite Hg.
    now apply list_lookup_insert_ne.
Qed.

(** The witness: a rebind of slot 0 on the platform whose [request_irq]
    fails with -EBUSY. *)
Lemma failed_registration_releases_new_handle_witness :
  exists w',
    map_msix_eventfd Scenario.K_busy 4 0 Example.w_bound0 = Ok (-16) w' /\
    w_trace w' = [Ev_free_irq 40 (Ctx 1); Ev_eventfd_ctx_put (Ctx 1);
                  Ev_eventfd_ctx_fdget 4; Ev_request_irq 40 (Ctx 2) (-16);
                  Ev_eventfd_ctx_put (Ctx 2)] /\
    slot w' 0 = Some None.
Proof.
  destruct (failed_registration_releases_new_handle Scenario.K_busy 4 0
              Example.w_bound0
              (Example.gdev_msix [Some (Ctx 1); None; None; None])
              Example.table {| vector := 40; entry := 0 |} (Some (Ctx 1)) (Ctx 2))
    as (w' & Hrun & Htr & Hslot & _);
    [lia | simpl; lia | reflexivity | reflexivity | reflexivity | reflexivity
    | reflexivity | simpl; lia |].
  exists w'. split_and!; assumption.
Defined.

(** ** The IRQ core's table mirrors the vector table *)

Lemma irqs_after_teardown_sub e s t irqn d :
  irqs_after (slot_teardown e s) t !! irqn = Some d -> t !! irqn = Some d.
Proof.
  destruct s as [old|]; [|easy].
  unfold irqs_after. simpl. apply irq_effect_free_sub.
Qed.

Lemma NoDup_vector_inj (es : list msix_entry) i j ei ej :
  NoDup (vector <$> es) ->
  es !! i = Some ei -> es !! j = Some ej -> vector ei = vector ej -> i = j.
Proof.
  intros Hnd Hi Hj Heq. eapply NoDup_lookup; [exact Hnd | |].
  - rewrite list_lookup_fmap, Hi. reflexivity.
  - rewrite list_lookup_fmap, Hj. simpl. now rewrite Heq.
Qed.

(** Tearing a slot down keeps the two tables in step. *)
Lemma unbind_keeps_mirror t es ss i e s :
  NoDup (vector <$> es) ->
  es !! i = Some e -> ss !! i = Some s ->
  actions_owned t es ss -> bound_registered t es ss ->
  actions_owned (irqs_after (slot_teardown e s) t) es (<[i := None]> ss) /\
  bound_registered (irqs_after (slot_teardown e s) t) es (<[i := None]> ss).
Proof.
  intros Hnd He Hs Hown Hreg. split.
  - intros irqn d Ht.
    destruct (Hown irqn d (irqs_after_teardown_sub _ _ _ _ _ Ht))
      as (j & ej & Hej & Hv & Hsj).
    destruct (decide (j = i)) as [->|Hne].
    + exfalso. rewrite He in Hej. inversion Hej; subst ej.
      rewrite Hs in Hsj. inversion Hsj; subst s. subst irqn.
      now apply (irqs_after_teardown_not_old e d t).
    + exists j, ej. split_and!; try assumption.
      now rewrite list_lookup_insert_ne.
  - intros j ej d Hej Hsj.
    destruct (decide (j = i)) as [->|Hne].
    + rewrite list_lookup_insert_eq in Hsj by (eapply lookup_lt_Some; eassumption).
      discriminate.
    + rewrite list_lookup_insert_ne in Hsj by congruence.
      rewrite irqs_after_teardown_other; [now apply (Hreg j)|].
      intros Heq. apply Hne.
      now apply (NoDup_vector_inj es j i ej e).
Qed.

(** Registering a handle for a slot keeps the two tables in step. *)
Lemma bind_keeps_mirror t es ss i e new :
  NoDup (vector <$> es) ->
  es !! i = Some e -> (i < length ss)%nat ->
  actions_owned t es ss -> bound_registered t es ss ->
  actions_owned (<[vector e := new]> t) es (<[i := Some new]> ss) /\
  bound_registered (<[vector e := new]> t) es (<[i := Some new]> ss).
Proof.
  intros Hnd He Hlt Hown Hreg. split.
  - intros irqn d Ht.
    destruct (decide (irqn = vector e)) as [->|Hne].
    + rewrite lookup_insert_eq in Ht. inversion Ht; subst d.
      exists i, e. split_and!; try easy. now apply list_lookup_insert_eq.
    + rewrite lookup_insert_ne in Ht by congruence.
      destruct (Hown irqn d Ht) as (j & ej & Hej & Hv & Hsj).
      exists j, ej. split_and!; try assumption.
      rewrite list_lookup_insert_ne; [assumption|].
      intros ->. rewrite He in Hej. inversion Hej; subst ej. congruence.
  - intros j ej d Hej Hsj.
    destruct (decide (j = i)) as [->|Hne].
    + rewrite list_lookup_insert_eq in Hsj by assumption.
      inversion Hsj; subst d. rewrite He in Hej. inversion Hej; subst ej.
      apply lookup_insert_eq.
    + rewrite list_lookup_insert_ne in Hsj by congruence.
      rewrite lookup_insert_ne; [now apply (Hreg j)|].
      intros Heq. apply Hne. symmetry.
      now apply (NoDup_vector_inj es i j e ej).
Qed.

(** On a line of the table whose slot is empty no action is registered. *)
Lemma empty_slot_no_action t es ss i e :
  NoDup (vector <$> es) ->
  es !! i = Some e -> ss !! i = Some None ->
  actions_owned t es ss -> t !! vector e = None.
Proof.
  intros Hnd He Hs Hown.
  destruct (t !! vector e) as [d|] eqn:Ht; [|reflexivity].
  destruct (Hown _ _ Ht) as (j & ej & Hej & Hv & Hsj).
  assert (j = i) as -> by now apply (NoDup_vector_inj es j i ej e).
  rewrite Hs in Hsj. discriminate.
Qed.

Lemma binding_ok_b_sound w : binding_ok_b w = true -> binding_ok w.
Proof.
  unfold binding_ok_b, binding_ok. intros Hb.
  apply andb_true_iff in Hb. destruct Hb as [Hdd Hb]. split; [exact Hdd|].
  destruct (w_gdev w) as [g|]; [|discriminate].
  destruct (entries (msix_info g)) as [es|] eqn:Hes; [|discriminate].
  repeat (apply andb_true_iff in Hb; destruct Hb as [Hb ?]).
  exists g, es. split_and!; try reflexivity.
  - exact Hes.
  - now apply Z.eqb_eq.
  - now apply Nat.eqb_eq.
  - eapply bool_decide_eq_true_1; eassumption.
  - now apply actions_owned_b_sound.
  - intros i e d He Hs.
    match goal with H : bound_registered_b _ _ _ = true |- _ =>
      unfold bound_registered_b in H; rewrite forallb_forall in H;
      specialize (H (e, Some d)) end.
    eapply bool_decide_eq_true_1. apply H.
    apply list_elem_of_In, list_elem_of_lookup. exists i.
    apply lookup_zip_with_Some. eauto.
Qed.

(** What a call that returns was given. *)
Lemma map_msix_eventfd_returns_inv K fd vec w r w' :
  map_msix_eventfd K fd vec w = Ok r w' ->
  exists g, w_gdev w = Some g /\
    (fd < 0 \/
     (0 <= fd /\ nvecs (msix_info g) <= vec) \/
     (0 <= fd /\ 0 <= vec < nvecs (msix_info g) /\
      exists es e s, entries (msix_info g) = Some es /\
        es !! Z.to_nat vec = Some e /\
        evts (msix_info g) !! Z.to_nat vec = Some s)).
Proof.
  intros Hrun. unfold map_msix_eventfd in Hrun.
  destruct (w_gdev w) as [g|] eqn:Hg.
  2:{ exfalso. destruct (Z.ltb_spec fd 0); unfold_monad;
        rewrite Hg in Hrun; discriminate. }
  exists g. split; [reflexivity|].
  destruct (Z.ltb_spec fd 0) as [Hneg|Hfd]; [now left|]. right.
  unfold bind at 1 in Hrun. unfold get_msix at 1 in Hrun. rewrite Hg in Hrun.
  destruct (Z.geb_spec vec (nvecs (msix_info g))) as [Hge|Hlt]; [left; lia|].
  right. split; [assumption|].
  unfold bind at 1 in Hrun. unfold entries_at at 1 in Hrun.
  unfold bind at 1 in Hrun. unfold get_msix at 1 in Hrun. rewrite Hg in Hrun.
  destruct (entries (msix_info g)) as [es|]; [|discriminate].
  destruct (Z.ltb_spec vec 0) as [Hvneg|Hv].
  { rewrite lookupZ_neg in Hrun by assumption. discriminate. }
  rewrite lookupZ_nonneg in Hrun by assumption.
  destruct (es !! Z.to_nat vec) as [e|] eqn:He; [|discriminate].
  unfold ret at 1 in Hrun.
  unfold bind at 1 in Hrun. unfold evts_at at 1 in Hrun.
  unfold bind at 1 in Hrun. unfold get_msix at 1 in Hrun. rewrite Hg in Hrun.
  rewrite lookupZ_nonneg in Hrun by assumption.
  destruct (evts (msix_info g) !! Z.to_nat vec) as [s|] eqn:Hs; [|discriminate].
  split; [lia|]. now exists es, e, s.
Qed.

Lemma binding_ok_after_calls w g es ss evs :
  drvdata (w_pdev w) = true ->
  entries (msix_info g) = Some es ->
  nvecs (msix_info g) = Z.of_nat (length es) ->
  length ss = length es ->
  NoDup (vector <$> es) ->
  actions_owned (irqs_after evs (w_irqs w)) es ss ->
  bound_registered (irqs_after evs (w_irqs w)) es ss ->
  binding_ok (after_calls w g ss evs).
Proof.
  intros Hdd Hes Hn Hlen Hnd Hown Hreg. split; [exact Hdd|].
  eexists _, es. split; [reflexivity|]. simpl. split_and!; assumption.
Qed.

(** On a well-formed binding a call with the sentinel descriptor or a
    non-negative index returns, and the binding is well formed
    afterwards. *)
Lemma map_msix_eventfd_keeps_ok K fd vec w :
  binding_ok w -> fd < 0 \/ 0 <= vec ->
  exists r w', map_msix_eventfd K fd vec w = Ok r w' /\ binding_ok w'.
Proof.
  intros (Hdd & g & es & Hg & Hes & Hn & Hlen & Hnd & Hown & Hreg) Hdom.
  destruct (Z.ltb_spec fd 0) as [Hneg|Hfd].
  { rewrite (map_msix_eventfd_sentinel K fd vec w g) by assumption.
    eexists _, _. split; [reflexivity|]. split; [exact Hdd|].
    exists g, es. simpl. split_and!; assumption. }
  destruct Hdom as [?|Hvec]; [lia|].
  destruct (Z.le_gt_cases (nvecs (msix_info g)) vec) as [Hge|Hlt].
  { rewrite (map_msix_eventfd_above K fd vec w g) by assumption.
    eexists _, _. split; [reflexivity|]. split; [exact Hdd|].
    exists g, es. split_and!; assumption. }
  destruct (lookup_lt_is_Some_2 es (Z.to_nat vec)) as [e He]; [lia|].
  destruct (lookup_lt_is_Some_2 (evts (msix_info g)) (Z.to_nat vec)) as [s Hs];
    [lia|].
  rewrite (map_msix_eventfd_in_range K fd vec w g es e s) by (assumption || lia).
  cbv zeta.
  destruct (unbind_keeps_mirror _ _ _ _ _ _ Hnd He Hs Hown Hreg) as [Hown1 Hreg1].
  assert (Hlen1 : length (<[Z.to_nat vec := None]> (evts (msix_info g)))
                  = length es) by now rewrite length_insert.
  destruct (plat_fdget K fd) as [new|].
  - destruct (Z.eqb_spec (plat_request_irq K (vector e) new) 0) as [Hr|Hr].
    + eexists _, _. split; [reflexivity|].
      destruct (bind_keeps_mirror _ _ _ (Z.to_nat vec) e new Hnd He
                  ltac:(rewrite Hlen1; lia) Hown1 Hreg1) as [Hown2 Hreg2].
      rewrite list_insert_insert_eq in Hown2, Hreg2.
      apply (binding_ok_after_calls w g es); try assumption.
      * now rewrite length_insert.
      * now rewrite !irqs_after_app.
      * now rewrite !irqs_after_app.
    + eexists _, _. split; [reflexivity|].
      assert (Hirqs : irqs_after
                ((slot_teardown e s ++ [Ev_eventfd_ctx_fdget fd])
                 ++ [Ev_request_irq (vector e) new
                       (plat_request_irq K (vector e) new);
                     Ev_eventfd_ctx_put new]) (w_irqs w)
              = irqs_after (slot_teardown e s) (w_irqs w)).
      { rewrite !irqs_after_app.
        change [Ev_request_irq (vector e) new
                  (plat_request_irq K (vector e) new);
                Ev_eventfd_ctx_put new]
          with ([Ev_request_irq (vector e) new
                   (plat_request_irq K (vector e) new)]
                ++ [Ev_eventfd_ctx_put new]).
        rewrite irqs_after_app, (irqs_after_request_err _ _ _ _ Hr).
        reflexivity. }
      apply (binding_ok_after_calls w g es); try assumption;
        now rewrite Hirqs.
  - eexists _, _. split; [reflexivity|].
    apply (binding_ok_after_calls w g es); try assumption;
      now rewrite !irqs_after_app.
Qed.

(** ** No reference is lost *)

Lemma tally_app {A} (p : A -> bool) l1 l2 :
  tally p (l1 ++ l2) = (tally p l1 + tally p l2)%nat.
Proof. induction l1 as [|x l1 IH]; simpl; [reflexivity | rewrite IH; lia]. Qed.

Lemma tally_insert {A} (p : A -> bool) l : forall i x v,
  l !! i = Some x ->
  (tally p (<[i := v]> l) + (if p x then 1 else 0)
   = tally p l + (if p v then 1 else 0))%nat.
Proof.
  induction l as [|y l IH]; intros i x v Hx; [discriminate|].
  destruct i as [|i]; simpl in *.
  - inversion Hx; subst. lia.
  - specialize (IH i x v Hx). lia.
Qed.

Lemma tally_teardown_release c e s :
  tally (is_release c) (slot_teardown e s) = (if holds c s then 1 else 0)%nat.
Proof.
  destruct s as [old|]; simpl; [|reflexivity].
  unfold holds. repeat case_bool_decide; simplify_eq; reflexivity.
Qed.

Lemma tally_teardown_acquire K c e s :
  tally (is_acquire K c) (slot_teardown e s) = 0%nat.
Proof. now destruct s. Qed.

(** A call that returns keeps the balance of references. *)
Lemma map_msix_eventfd_keeps_balance K fd vec w r w' :
  refs_balanced K w ->
  map_msix_eventfd K fd vec w = Ok r w' ->
  refs_balanced K w'.
Proof.
  intros Hbal Hrun c. specialize (Hbal c).
  destruct (map_msix_eventfd_returns_inv _ _ _ _ _ _ Hrun)
    as (g & Hg & [Hneg | [[Hfd Hge] | (Hfd & Hvec & es & e & s & Hes & He & Hs)]]).
  - rewrite (map_msix_eventfd_sentinel K fd vec w g) in Hrun by assumption.
    inversion Hrun; subst w'. unfold table_evts in *. simpl.
    rewrite !tally_app. simpl. lia.
  - rewrite (map_msix_eventfd_above K fd vec w g) in Hrun by assumption.
    now inversion Hrun; subst w'.
  - rewrite (map_msix_eventfd_in_range K fd vec w g es e s) in Hrun
      by assumption.
    cbv zeta in Hrun. unfold table_evts in Hbal. rewrite Hg in Hbal.
    pose proof (tally_insert (holds c) _ _ _ None Hs) as Hnone.
    pose proof (tally_teardown_release c e s) as Hrel.
    pose proof (tally_teardown_acquire K c e s) as Hacq.
    destruct (plat_fdget K fd) as [new|] eqn:Hnew.
    + pose proof (tally_insert (holds c) _ _ _ (Some new) Hs) as Hsome.
      destruct (Z.eqb_spec (plat_request_irq K (vector e) new) 0) as [Hr|Hr];
        inversion Hrun; subst w'; unfold table_evts; simpl;
        rewrite !tally_app, Hrel, Hacq; simpl; rewrite Hnew;
        unfold holds in *; repeat case_bool_decide; simplify_eq; lia.
    + inversion Hrun; subst w'. unfold table_evts. simpl.
      rewrite !tally_app, Hrel, Hacq. simpl. rewrite Hnew.
      unfold holds in *. repeat case_bool_decide; simplify_eq; lia.
Qed.

(** X5.  On a well-formed binding in vector mode every ioctl that does
    not name a negative index for a bind returns, whatever the command,
    the copy from user space, the descriptor and the platform's answers;
    and the binding is well formed afterwards: the arrays keep their
    length, and the IRQ core's table still holds exactly the actions of
    the bound slots, each closed over the handle of its slot. *)
Theorem ioctl_keeps_binding_ok K c cmd arg w :
  binding_ok w ->
  op_index_nonneg c (Op_ioctl cmd arg) = true ->
  exists r w', uio_msi_ioctl K c cmd arg w = Ok r w' /\ binding_ok w'.
Proof.
  intros Hok Hdom. unfold uio_msi_ioctl.
  destruct (Z.eqb_spec cmd c) as [->|Hne].
  - destruct arg as [d|]; [|now eexists _, _].
    apply map_msix_eventfd_keeps_ok; [assumption|].
    simpl in Hdom. rewrite Z.eqb_refl in Hdom. simpl in Hdom.
    apply orb_true_iff in Hdom. destruct Hdom as [H|H]; [left|right]; lia.
  - now eexists _, _.
Qed.

(** The witness: a rebind of slot 0 of the four-vector device. *)
Lemma ioctl_keeps_binding_ok_witness :
  exists r w',
    uio_msi_ioctl Example.K 100 100 (Some {| data_fd := 4; data_vector := 0 |})
      Example.w_bound0 = Ok r w' /\
    binding_ok w'.
Proof.
  apply (ioctl_keeps_binding_ok Example.K 100 100
           (Some {| data_fd := 4; data_vector := 0 |}) Example.w_bound0).
  - apply binding_ok_b_sound. vm_compute. reflexivity.
  - reflexivity.
Defined.

(** X6.  Every ioctl that returns keeps the balance of references: for
    every handle, the lookups that took a reference to it are as many as
    the releases of it plus the slots that hold it.  This holds on every
    path: bind, rebind, failed lookup, failed registration, index past
    the table, disable request, unknown command, failed copy. *)
Theorem ioctl_keeps_refs_balanced K c cmd arg w r w' :
  refs_balanced K w ->
  uio_msi_ioctl K c cmd arg w = Ok r w' ->
  refs_balanced K w'.
Proof.
  intros Hbal Hrun. unfold uio_msi_ioctl in Hrun.
  destruct (cmd =? c).
  - destruct arg as [d|].
    + now apply (map_msix_eventfd_keeps_balance _ _ _ _ _ _ Hbal Hrun).
    + now inversion Hrun; subst.
  - now inversion Hrun; subst.
Qed.

(** The witness: a rebind of slot 0 when [request_irq] fails, on the
    device as the first bind of descriptor 3 to slot 0 left it. *)
Lemma ioctl_keeps_refs_balanced_witness :
  refs_balanced Scenario.K_busy
    (after_calls
       (Example.run (map_msix_eventfd Example.K 3 0)
          (Example.claimed [None; None; None; None] ∅))
       (Example.gdev_msix [Some (Ctx 1); None; None; None])
       [None; None; None; None]
       [Ev_free_irq 40 (Ctx 1); Ev_eventfd_ctx_put (Ctx 1);
        Ev_eventfd_ctx_fdget 4; Ev_request_irq 40 (Ctx 2) (-16);
        Ev_eventfd_ctx_put (Ctx 2)]).
Proof.
  apply (ioctl_keeps_refs_balanced Scenario.K_busy 100 100
           (Some {| data_fd := 4; data_vector := 0 |})
           (Example.run (map_msix_eventfd Example.K 3 0)
              (Example.claimed [None; None; None; None] ∅))
           (-16)).
  - intros c. vm_compute. now destruct c as [[p|p|]]; try destruct p.
  - vm_compute. reflexivity.
Defined.

(** X7.  On a well-formed binding an interrupt on the line of a slot
    runs [uio_msix_handler] with the handle of that slot: it signals that
    handle once, and nothing else changes.  On the line of an empty slot,
    and on a line that is not in the table, no handler runs at all. *)
Theorem interrupt_signals_slot_handle w g es :
  binding_ok w ->
  w_gdev w = Some g -> entries (msix_info g) = Some es ->
  (forall i e s,
     es !! i = Some e -> evts (msix_info g) !! i = Some s ->
     generic_handle_irq uio_msix_handler (vector e) w
       = match s with
         | Some d => Ok IRQ_HANDLED (log (Ev_eventfd_signal d) w)
         | None => Ok IRQ_NONE w
         end) /\
  (forall irqn,
     (forall i e, es !! i = Some e -> vector e <> irqn) ->
     generic_handle_irq uio_msix_handler irqn w = Ok IRQ_NONE w).
Proof.
  intros (Hdd & g' & es' & Hg' & Hes' & Hn & Hlen & Hnd & Hown & Hreg) Hg Hes.
  rewrite Hg in Hg'. inversion Hg'; subst g'.
  rewrite Hes in Hes'. inversion Hes'; subst es'.
  split.
  - intros i e s He Hs. unfold generic_handle_irq. destruct s as [d|].
    + now rewrite (Hreg i e d He Hs).
    + now rewrite (empty_slot_no_action _ _ _ _ _ Hnd He Hs Hown).
  - intros irqn Hout. unfold generic_handle_irq.
    destruct (w_irqs w !! irqn) as [d|] eqn:Ht; [|reflexivity].
    destruct (Hown _ _ Ht) as (j & ej & Hej & Hv & _).
    now destruct (Hout j ej Hej).
Qed.

(** The witness: slots 0 and 2 bound to contexts 1 and 2, an interrupt on
    the lines of slots 2 and 1. *)
Lemma interrupt_signals_slot_handle_witness :
  generic_handle_irq uio_msix_handler 42 Example.w_bound02
    = Ok IRQ_HANDLED (log (Ev_eventfd_signal (Ctx 2)) Example.w_bound02) /\
  generic_handle_irq uio_msix_handler 41 Example.w_bound02
    = Ok IRQ_NONE Example.w_bound02.
Proof.
  destruct (interrupt_signals_slot_handle Example.w_bound02
              (Example.gdev_msix [Some (Ctx 1); None; Some (Ctx 2); None])
              Example.table) as [Hin _];
    [apply binding_ok_b_sound; vm_compute; reflexivity
    | reflexivity | reflexivity |].
  split.
  - exact (Hin 2%nat {| vector := 42; entry := 2 |} (Some (Ctx 2))
             eq_refl eq_refl).
  - exact (Hin 1%nat {| vector := 41; entry := 1 |} None eq_refl eq_refl).
Defined.

(** ** The allocator on every answer of the platform *)

(** [pci_generic_init_msix] case by case. *)
Lemma pci_generic_init_msix_cases K w g :
  w_gdev w = Some g ->
  let N := plat_msix_vec_count K in
  pci_generic_init_msix K w =
    if N =? 0 then Ok (- EINVAL) w
    else if negb (plat_kzalloc K
                    ((N * (sizeof_msix_entry + sizeof_eventfd_ctx_ptr))
                     mod 2 ^ 64))
    then Ok (- ENOMEM) w
    else if N <? 1 then
      Ok (- EINVAL)
         (log Ev_kfree_entries
            (log (Ev_pci_enable_msix_exact N)
               (world_with_msix w g
                  {| entries := None; evts := []; nvecs := N |})))
    else if plat_msix_avail K <? N then
      Ok (- ENOSPC)
         (log Ev_kfree_entries
            (log (Ev_pci_enable_msix_exact N)
               (world_with_msix w g
                  {| entries := None;
                     evts := replicate (Z.to_nat N) None;
                     nvecs := N |})))
    else
      Ok 0 (set_pdev (with_msix true (w_pdev w))
              (log (Ev_pci_enable_msix_exact N)
                 (world_with_msix w g
                    {| entries := Some (msix_fill K <$>
                         number_entries 0 (replicate (Z.to_nat N) zero_entry));
                       evts := replicate (Z.to_nat N) None;
                       nvecs := N |}))).
Proof.
  intros Hg N.
  destruct (Z.eqb_spec N 0) as [H0|H0].
  { unfold pci_generic_init_msix. fold N. unfold_monad. rewrite Hg.
    now rewrite (proj2 (Z.eqb_eq _ _) H0). }
  destruct (plat_kzalloc K _) eqn:Hk; simpl negb; cbv iota.
  2:{ unfold pci_generic_init_msix. fold N. unfold_monad. rewrite Hg.
      rewrite (proj2 (Z.eqb_neq _ _) H0). fold N in Hk. now rewrite Hk. }
  destruct (Z.ltb_spec N 1) as [Hneg|Hpos].
  { unfold pci_generic_init_msix. fold N.
    unfold bind at 1. unfold deref_gdev at 1. rewrite Hg.
    rewrite (proj2 (Z.eqb_neq _ _) H0). fold N in Hk. rewrite Hk.
    change (negb true) with false. cbv beta iota.
    replace (Z.to_nat N) with 0%nat by lia.
    unfold pci_enable_msix_exact, kfree_entries, set_entries.
    unfold_monad. rewrite Hg. simpl.
    destruct (Z.ltb_spec N 1); [|lia]. simpl. reflexivity. }
  destruct (Z.ltb_spec (plat_msix_avail K) N).
  - now apply pci_generic_init_msix_rejected; try lia.
  - now apply pci_generic_init_msix_granted; try lia.
Qed.

(** X8.  On a freshly allocated driver object [pci_generic_init_msix]
    always returns.  It returns 0 exactly when the table's memory is
    granted and the reported count [N] is at least 1 and at most what the
    platform can grant; vector delivery is then enabled and [nvecs] is
    [N].  In every other case (a count of 0, a negative count, no memory,
    fewer vectors than asked) it returns a negative error with the table
    pointer NULL and the device untouched.  It never registers an action
    or touches the driver's [info]. *)
Theorem init_msix_succeeds_exactly_when_granted K w g :
  w_gdev w = Some g -> entries (msix_info g) = None ->
  let N := plat_msix_vec_count K in
  exists r w',
    pci_generic_init_msix K w = Ok r w' /\
    (r = 0 <->
       plat_kzalloc K ((N * (sizeof_msix_entry + sizeof_eventfd_ctx_ptr))
                       mod 2 ^ 64) = true /\
       1 <= N <= plat_msix_avail K) /\
    (r = 0 -> msix_enabled (w_pdev w') = true /\ table_nvecs w' = Some N) /\
    (r <> 0 -> r < 0 /\ table_entries w' = None /\ w_pdev w' = w_pdev w) /\
    w_irqs w' = w_irqs w /\
    w_uio w' = w_uio w /\
    info <$> w_gdev w' = Some (info g).
Proof.
  intros Hg Hnull N.
  rewrite (pci_generic_init_msix_cases K w g Hg). fold N.
  assert (Htab : table_entries w = None)
    by (unfold table_entries; now rewrite Hg).
  assert (Hinfo : info <$> w_gdev w = Some (info g)) by now rewrite Hg.
  destruct (Z.eqb_spec N 0) as [H0|H0].
  { eexists _, _. split; [reflexivity|].
    split_and!; try easy; try (split; [discriminate | lia]). }
  destruct (plat_kzalloc K _) eqn:Hk; simpl negb; cbv iota.
  2:{ eexists _, _. split; [reflexivity|].
      split_and!; try easy; try (split; [discriminate | easy]). }
  destruct (Z.ltb_spec N 1) as [Hneg|Hpos].
  { eexists _, _. split; [reflexivity|].
    split_and!; try easy; try (split; [discriminate | lia]). }
  destruct (Z.ltb_spec (plat_msix_avail K) N) as [Hfew|Hav].
  - eexists _, _. split; [reflexivity|].
    split_and!; try easy; try (split; [discriminate | lia]).
  - eexists _, _. split; [reflexivity|].
    split_and!; try easy;
      try (split; [intros _; split; [reflexivity | lia] | easy]).
Qed.

(** The witness: the platform that can grant two of the four vectors. *)
Lemma init_msix_succeeds_exactly_when_granted_witness :
  exists r w',
    pci_generic_init_msix Example.K_scarce
      (set_gdev (Some zero_gdev) (Example.unclaimed Example.pdev_msix))
      = Ok r w' /\
    r <> 0 /\ table_entries w' = None.
Proof.
  destruct (init_msix_succeeds_exactly_when_granted Example.K_scarce
              (set_gdev (Some zero_gdev) (Example.unclaimed Example.pdev_msix))
              zero_gdev) as (r & w' & Hrun & Hiff & _ & Hfail & _);
    [reflexivity | reflexivity |].
  assert (Hr : r <> 0).
  { intros H0. apply Hiff in H0. simpl in H0. lia. }
  exists r, w'. split_and!; [assumption | assumption | now apply Hfail].
Defined.

(** ** [probe] on every answer of the platform *)

(** What [pci_generic_init_msix] leaves alone, whatever it returns. *)
Lemma pci_generic_init_msix_frame K w g :
  w_gdev w = Some g ->
  exists r w' g',
    pci_generic_init_msix K w = Ok r w' /\
    w_gdev w' = Some g' /\ info g' = info g /\
    w_irqs w' = w_irqs w /\ w_uio w' = w_uio w /\
    enable_cnt (w_pdev w') = enable_cnt (w_pdev w) /\
    drvdata (w_pdev w') = drvdata (w_pdev w).
Proof.
  intros Hg. rewrite (pci_generic_init_msix_cases K w g Hg). cbv zeta.
  destruct (Z.eqb (plat_msix_vec_count K) 0);
    [| destruct (negb _);
       [| destruct (Z.ltb (plat_msix_vec_count K) 1);
          [| destruct (Z.ltb (plat_msix_avail K) _)]]];
    (eexists _, _, _; split; [reflexivity|]; simpl;
     split_and!; try reflexivity; exact Hg).
Qed.

(** X9.  [probe] always returns, and it is all or nothing.  It returns
    0 exactly when the bus-level enable succeeds, the device has no
    legacy line or can mask it, the driver object is allocated and the
    registration with the UIO core succeeds; the outcome of the vector
    table allocation plays no part.  On 0 the device is enabled once
    more, registered, and its driver data set.  On any error the enable
    count, the registration and the driver data are as before the call,
    and no driver object is left behind.  [probe] never registers an
    interrupt action. *)
Theorem probe_is_all_or_nothing K w :
  exists r w',
    probe K w = Ok r w' /\
    (r = 0 <->
       plat_enable_device K = 0 /\
       (irq (w_pdev w) = 0 \/ intx_mask_supported (w_pdev w) = true) /\
       plat_kzalloc_gdev K = true /\
       plat_uio_register K = 0) /\
    (r = 0 ->
       enable_cnt (w_pdev w') = enable_cnt (w_pdev w) + 1 /\
       w_uio w' = true /\
       drvdata (w_pdev w') = true /\
       is_Some (w_gdev w')) /\
    (r <> 0 ->
       enable_cnt (w_pdev w') = enable_cnt (w_pdev w) /\
       w_uio w' = w_uio w /\
       drvdata (w_pdev w') = drvdata (w_pdev w) /\
       (w_gdev w' = None \/ w_gdev w' = w_gdev w)) /\
    w_irqs w' = w_irqs w.
Proof.
  destruct (Z.eq_dec (plat_enable_device K) 0) as [Hen|Hen].
  { destruct w as [p og t u tr].
    destruct p as [pirq cnt msi msix bm cmd st ims dd].
    unfold probe, pci_enable_device, pci_intx_mask_supported, kzalloc_gdev,
      upd_info.
    unfold_monad. rewrite Hen. simpl.
    destruct (Z.eqb_spec pirq 0) as [Hirq|Hirq]; simpl.
    - (* no legacy line: the vector table *)
      destruct (plat_kzalloc_gdev K) eqn:Hkg; simpl.
      2:{ unfold pci_disable_device. unfold_monad. simpl.
          eexists _, _. split; [reflexivity|]. simpl.
          split_and!; intuition (try lia; try congruence; try easy). }
      match goal with |- context [pci_generic_init_msix K ?w0] =>
        destruct (pci_generic_init_msix_frame K w0 _ eq_refl)
          as (r1 & w1 & g1 & Hrun & Hg1 & Hi1 & Hq1 & Hu1 & Hc1 & Hd1)
      end.
      rewrite Hrun. simpl in Hq1, Hu1, Hc1, Hd1.
      unfold uio_register_device, kfree_gdev, pci_disable_device,
        pci_set_drvdata, kfree_entries.
      unfold_monad. simpl.
      destruct (Z.eqb_spec (plat_uio_register K) 0) as [Hr|Hr]; simpl.
      + eexists _, _. split; [reflexivity|]. simpl. rewrite Hc1, Hq1, Hg1.
        split_and!; intuition (try lia; try congruence; eauto).
      + rewrite (proj2 (Z.eqb_neq _ _) Hr). simpl. rewrite Hg1.
        destruct (entries (msix_info g1)); simpl;
          (eexists _, _; split; [reflexivity|]; simpl;
           rewrite ?Hc1, ?Hq1, ?Hu1, ?Hd1;
           split_and!; intuition (try lia; try congruence; try easy)).
    - (* a legacy line *)
      destruct ims; simpl.
      2:{ unfold pci_disable_device. unfold_monad. simpl.
          eexists _, _. split; [reflexivity|]. simpl.
          split_and!; intuition (try lia; try congruence; try easy). }
      destruct (plat_kzalloc_gdev K) eqn:Hkg; simpl.
      2:{ unfold pci_disable_device. unfold_monad. simpl.
          eexists _, _. split; [reflexivity|]. simpl.
          split_and!; intuition (try lia; try congruence; try easy). }
      unfold uio_register_device, kfree_gdev, pci_disable_device,
        pci_set_drvdata, kfree_entries.
      unfold_monad. simpl.
      destruct (Z.eqb_spec (plat_uio_register K) 0) as [Hr|Hr]; simpl.
      + eexists _, _. split; [reflexivity|]. simpl.
        split_and!; intuition (try lia; try congruence; eauto).
      + rewrite (proj2 (Z.eqb_neq _ _) Hr). simpl.
        eexists _, _. split; [reflexivity|]; simpl.
        split_and!; intuition (try lia; try congruence; try easy). }
  rewrite (probe_enable_failure K w Hen).
  eexists _, _. split; [reflexivity|]. simpl.
  split_and!; intuition (try lia; try congruence; try easy).
Qed.

(** The [info] that [probe] fills in for a device without a legacy line. *)
Lemma probe_vector_mode K w :
  let N := plat_msix_vec_count K in
  plat_enable_device K = 0 ->
  irq (w_pdev w) = 0 ->
  plat_kzalloc_gdev K = true ->
  0 < N ->
  plat_kzalloc K ((N * (sizeof_msix_entry + sizeof_eventfd_ctx_ptr)) mod 2 ^ 64)
    = true ->
  N <= plat_msix_avail K ->
  probe K w =
    let info1 := {| name := "uio_pci_generic"; version := DRIVER_VERSION;
                    info_irq := 0; irq_flags := 0; handler := None;
                    info_release := Some Release_release;
                    ioctl := Some Ioctl_uio_msi_ioctl |} in
    let table := {| entries := Some (msix_fill K <$>
                      number_entries 0 (replicate (Z.to_nat N) zero_entry));
                    evts := replicate (Z.to_nat N) None;
                    nvecs := N |} in
    let p1 := with_msix true
                (with_enable_cnt (enable_cnt (w_pdev w) + 1) (w_pdev w)) in
    if plat_uio_register K =? 0 then
      Ok 0 {| w_pdev := with_drvdata true p1;
              w_gdev := Some {| info := info1; msix_info := table |};
              w_irqs := w_irqs w;
              w_uio := true;
              w_trace := w_trace w ++ [Ev_pci_enable_device;
                                       Ev_pci_enable_msix_exact N;
                                       Ev_uio_register_device] |}
    else
      Ok (plat_uio_register K)
         {| w_pdev := with_enable_cnt (enable_cnt (w_pdev w)) p1;
            w_gdev := None;
            w_irqs := w_irqs w;
            w_uio := w_uio w;
            w_trace := w_trace w ++ [Ev_pci_enable_device;
                                     Ev_pci_enable_msix_exact N;
                                     Ev_uio_register_device;
                                     Ev_kfree_entries; Ev_kfree_gdev;
                                     Ev_pci_disable_device] |}.
Proof.
  intros N Hen Hirq Hkg HN Hk Hav.
  destruct w as [p og t u tr]. destruct p as [pirq cnt msi msix bm cmd st ims dd].
  simpl in Hirq. subst pirq.
  unfold probe, pci_enable_device, pci_intx_mask_supported, kzalloc_gdev,
    upd_info.
  unfold_monad. rewrite Hen, Hkg. simpl.
  erewrite (pci_generic_init_msix_granted K);
    [| reflexivity | exact HN | exact Hk | exact Hav]. fold N.
  unfold uio_register_device, kfree_gdev, pci_disable_device, pci_set_drvdata,
    kfree_entries.
  unfold_monad. simpl.
  destruct (Z.eqb_spec (plat_uio_register K) 0) as [Hr|Hr]; simpl.
  - f_equal. apply world_eq; simpl; try reflexivity.
    now rewrite <- !app_assoc.
  - rewrite (proj2 (Z.eqb_neq _ _) Hr). simpl.
    f_equal. apply world_eq; simpl; try reflexivity.
    + unfold with_enable_cnt, with_msix. simpl. f_equal. lia.
    + now rewrite <- !app_assoc.
Qed.

Lemma tally_replicate_holds c n :
  tally (holds c) (replicate n None) = 0%nat.
Proof. induction n; simpl; [reflexivity | exact IHn]. Qed.

(** The table that a granted allocation builds makes a well-formed
    binding when its lines are pairwise distinct and no action is
    registered. *)
Lemma granted_binding_ok K p inf u tr N :
  0 < N <= 2 ^ 16 ->
  (forall i j, 0 <= i < N -> 0 <= j < N ->
     plat_msix_vector K i = plat_msix_vector K j -> i = j) ->
  drvdata p = true ->
  binding_ok
    {| w_pdev := p;
       w_gdev := Some
         {| info := inf;
            msix_info :=
              {| entries := Some (msix_fill K <$>
                   number_entries 0 (replicate (Z.to_nat N) zero_entry));
                 evts := replicate (Z.to_nat N) None;
                 nvecs := N |} |};
       w_irqs := ∅;
       w_uio := u;
       w_trace := tr |}.
Proof.
  intros HN Hinj Hdd. split; [exact Hdd|].
  eexists _, _. split; [reflexivity|]. simpl.
  split_and!; try reflexivity.
  - rewrite length_fmap, number_entries_length, length_replicate. lia.
  - now rewrite length_fmap, number_entries_length, !length_replicate.
  - apply NoDup_alt. intros i j x Hi Hj.
    rewrite list_lookup_fmap in Hi, Hj.
    assert (Hli : (i < Z.to_nat N)%nat).
    { destruct ((msix_fill K <$> _) !! i) eqn:E; [|discriminate].
      apply lookup_lt_Some in E.
      now rewrite length_fmap, number_entries_length, length_replicate in E. }
    assert (Hlj : (j < Z.to_nat N)%nat).
    { destruct ((msix_fill K <$> _) !! j) eqn:E; [|discriminate].
      apply lookup_lt_Some in E.
      now rewrite length_fmap, number_entries_length, length_replicate in E. }
    rewrite (fmap_number_replicate_lookup K _ i Hli) in Hi.
    rewrite (fmap_number_replicate_lookup K _ j Hlj) in Hj.
    simpl in Hi, Hj. rewrite <- Hj in Hi. inversion Hi as [Hv].
    rewrite !Z.mod_small in Hv by lia.
    apply Hinj in Hv; lia.
  - intros irqn d Ht. rewrite lookup_empty in Ht. discriminate.
  - intros i e d _ Hs. apply lookup_replicate_1 in Hs. now destruct Hs.
Qed.

(** X10.  When everything is granted to a device without a legacy line
    (at most 65536 vectors, on pairwise distinct lines) and no interrupt
    action is registered yet, [probe] returns 0 and leaves a well-formed
    binding in vector mode: [nvecs] slots, all empty, vector delivery
    enabled, the device registered with the release hook and the ioctl
    but no legacy handler, no reference taken. *)
Theorem probe_establishes_binding K w :
  let N := plat_msix_vec_count K in
  plat_enable_device K = 0 ->
  irq (w_pdev w) = 0 ->
  plat_kzalloc_gdev K = true ->
  0 < N <= 2 ^ 16 ->
  plat_kzalloc K ((N * (sizeof_msix_entry + sizeof_eventfd_ctx_ptr)) mod 2 ^ 64)
    = true ->
  N <= plat_msix_avail K ->
  plat_uio_register K = 0 ->
  (forall i j, 0 <= i < N -> 0 <= j < N ->
     plat_msix_vector K i = plat_msix_vector K j -> i = j) ->
  w_irqs w = ∅ ->
  exists w' g,
    probe K w = Ok 0 w' /\
    binding_ok w' /\
    w_gdev w' = Some g /\
    nvecs (msix_info g) = N /\
    evts (msix_info g) = replicate (Z.to_nat N) None /\
    handler (info g) = None /\
    info_release (info g) = Some Release_release /\
    ioctl (info g) = Some Ioctl_uio_msi_ioctl /\
    msix_enabled (w_pdev w') = true /\
    w_trace w' = w_trace w ++ [Ev_pci_enable_device;
                               Ev_pci_enable_msix_exact N;
                               Ev_uio_register_device].
Proof.
  intros N Hen Hirq Hkg HN Hk Hav Hreg Hinj Hempty.
  rewrite (probe_vector_mode K w) by (assumption || lia).
  cbv zeta. fold N. rewrite Hreg, Hempty. simpl.
  eexists _, _. split; [reflexivity|]. split_and!; try reflexivity.
  now apply granted_binding_ok.
Qed.

(** The witness: the four-vector device on the platform that grants
    everything. *)
Lemma probe_establishes_binding_witness :
  exists w' g,
    probe Example.K (Example.unclaimed Example.pdev_msix) = Ok 0 w' /\
    binding_ok w' /\
    w_gdev w' = Some g /\
    evts (msix_info g) = [None; None; None; None].
Proof.
  destruct (probe_establishes_binding Example.K
              (Example.unclaimed Example.pdev_msix))
    as (w' & g & Hrun & Hok & Hg & _ & Hev & _);
    [reflexivity | reflexivity | reflexivity | simpl; lia | reflexivity
    | simpl; lia | reflexivity | simpl; intros; lia | reflexivity |].
  exists w', g. split_and!; assumption.
Defined.

(** [probe] on a device with a legacy line that it can mask. *)
Lemma probe_legacy_mode K w :
  plat_enable_device K = 0 ->
  irq (w_pdev w) <> 0 ->
  intx_mask_supported (w_pdev w) = true ->
  plat_kzalloc_gdev K = true ->
  plat_uio_register K = 0 ->
  probe K w =
    Ok 0 {| w_pdev := with_drvdata true
                        (with_enable_cnt (enable_cnt (w_pdev w) + 1) (w_pdev w));
            w_gdev := Some
              {| info := {| name := "uio_pci_generic";
                            version := DRIVER_VERSION;
                            info_irq := irq (w_pdev w);
                            irq_flags := IRQF_SHARED;
                            handler := Some Handler_irqhandler;
                            info_release := Some Release_release;
                            ioctl := Some Ioctl_uio_msi_ioctl |};
                 msix_info := {| entries := None; evts := []; nvecs := 0 |} |};
            w_irqs := w_irqs w;
            w_uio := true;
            w_trace := w_trace w ++ [Ev_pci_enable_device;
                                     Ev_uio_register_device] |}.
Proof.
  intros Hen Hirq Hmask Hkg Hreg.
  destruct w as [p og t u tr]. destruct p as [pirq cnt msi msix bm cmd st ims dd].
  simpl in Hirq, Hmask. subst ims.
  unfold probe, pci_enable_device, pci_intx_mask_supported, kzalloc_gdev,
    upd_info, uio_register_device, pci_set_drvdata.
  unfold_monad. rewrite Hen, Hkg, Hreg. simpl.
  destruct (Z.eqb_spec pirq 0); [contradiction|]. simpl.
  f_equal. apply world_eq; simpl; try reflexivity.
  now rewrite <- !app_assoc.
Qed.

(** [remove] on a binding without a vector table. *)
Lemma remove_no_table w g :
  drvdata (w_pdev w) = true ->
  w_gdev w = Some g -> entries (msix_info g) = None ->
  remove w =
    Ok tt {| w_pdev := with_enable_cnt (enable_cnt (w_pdev w) - 1) (w_pdev w);
             w_gdev := None;
             w_irqs := w_irqs w;
             w_uio := false;
             w_trace := w_trace w ++ [Ev_uio_unregister_device;
                                      Ev_pci_disable_device;
                                      Ev_kfree_gdev] |}.
Proof.
  intros Hdd Hg Hes.
  destruct w as [p og t u tr], g as [inf [oes ss nv]].
  simpl in *. subst og oes.
  unfold remove, pci_get_drvdata, uio_unregister_device, pci_disable_device,
    kfree_gdev.
  unfold_monad. simpl. rewrite Hdd. simpl.
  f_equal. apply world_eq; simpl; try reflexivity.
  now rewrite <- !app_assoc.
Qed.

(** X11.  A device with a legacy line that it can mask is claimed in
    legacy mode: the UIO core is given the line, shared, with
    [irqhandler]; no vector is requested and the table stays empty
    ([nvecs] 0, no arrays).  On such a binding no handle can be bound:
    every call of [map_msix_eventfd] with a non-negative descriptor and a
    non-negative index fails with -EINVAL and changes nothing. *)
Theorem probe_legacy_binds_nothing K w :
  plat_enable_device K = 0 ->
  irq (w_pdev w) <> 0 ->
  intx_mask_supported (w_pdev w) = true ->
  plat_kzalloc_gdev K = true ->
  plat_uio_register K = 0 ->
  exists w' g,
    probe K w = Ok 0 w' /\
    w_gdev w' = Some g /\
    info_irq (info g) = irq (w_pdev w) /\
    irq_flags (info g) = IRQF_SHARED /\
    handler (info g) = Some Handler_irqhandler /\
    msix_info g = {| entries := None; evts := []; nvecs := 0 |} /\
    msix_enabled (w_pdev w') = msix_enabled (w_pdev w) /\
    w_irqs w' = w_irqs w /\
    w_trace w' = w_trace w ++ [Ev_pci_enable_device; Ev_uio_register_device] /\
    (forall K' fd vec, 0 <= fd -> 0 <= vec ->
       map_msix_eventfd K' fd vec w' = Ok (- EINVAL) w').
Proof.
  intros Hen Hirq Hmask Hkg Hreg.
  rewrite (probe_legacy_mode K w) by assumption.
  eexists _, _. split; [reflexivity|]. split_and!; try reflexivity.
  intros K' fd vec Hfd Hvec.
  eapply map_msix_eventfd_above; [exact Hfd | | reflexivity]. exact Hvec.
Qed.

(** The witness: the device on legacy line 11 that supports masking. *)
Lemma probe_legacy_binds_nothing_witness :
  exists w',
    probe Example.K (Example.unclaimed (Example.pdev_legacy false true))
      = Ok 0 w' /\
    map_msix_eventfd Example.K 3 0 w' = Ok (- EINVAL) w'.
Proof.
  destruct (probe_legacy_binds_nothing Example.K
              (Example.unclaimed (Example.pdev_legacy false true)))
    as (w' & g & Hrun & _ & _ & _ & _ & _ & _ & _ & _ & Hrej);
    [reflexivity | simpl; lia | reflexivity | reflexivity | reflexivity |].
  exists w'. split; [assumption|]. apply Hrej; lia.
Defined.

(** X12.  When the vector table has been granted and
    [uio_register_device] then fails, [probe] returns that error after
    freeing the table and the driver object and disabling the device at
    the bus level.  It does not call [pci_disable_msix]: vector delivery,
    enabled by the allocation, is still enabled when [probe] returns. *)
Theorem failed_registration_leaves_msix_enabled K w :
  let N := plat_msix_vec_count K in
  plat_enable_device K = 0 ->
  irq (w_pdev w) = 0 ->
  plat_kzalloc_gdev K = true ->
  0 < N ->
  plat_kzalloc K ((N * (sizeof_msix_entry + sizeof_eventfd_ctx_ptr)) mod 2 ^ 64)
    = true ->
  N <= plat_msix_avail K ->
  plat_uio_register K <> 0 ->
  exists w',
    probe K w = Ok (plat_uio_register K) w' /\
    w_gdev w' = None /\
    enable_cnt (w_pdev w') = enable_cnt (w_pdev w) /\
    msix_enabled (w_pdev w') = true /\
    w_uio w' = w_uio w /\
    w_trace w' = w_trace w ++ [Ev_pci_enable_device;
                               Ev_pci_enable_msix_exact N;
                               Ev_uio_register_device;
                               Ev_kfree_entries; Ev_kfree_gdev;
                               Ev_pci_disable_device].
Proof.
  intros N Hen Hirq Hkg HN Hk Hav Hreg.
  rewrite (probe_vector_mode K w) by assumption.
  cbv zeta. fold N. rewrite (proj2 (Z.eqb_neq _ _) Hreg).
  eexists. split; [reflexivity|]. split_and!; reflexivity.
Qed.

(** The witness: the four-vector device when the registration fails with
    -ENOMEM. *)
Lemma failed_registration_leaves_msix_enabled_witness :
  exists w',
    probe Scenario.K_no_register (Example.unclaimed Example.pdev_msix)
      = Ok (-12) w' /\
    msix_enabled (w_pdev w') = true /\
    w_gdev w' = None.
Proof.
  destruct (failed_registration_leaves_msix_enabled Scenario.K_no_register
              (Example.unclaimed Example.pdev_msix))
    as (w' & Hrun & Hg & _ & Hmsix & _);
    [reflexivity | reflexivity | reflexivity | simpl; lia | reflexivity
    | simpl; lia | simpl; lia |].
  exists w'. split_and!; assumption.
Defined.

(** X13.  Claiming a device in legacy mode and removing it again is a
    round trip for the device: [remove] undoes the bus-level enable and
    the registration, frees the driver object, and calls neither
    [free_irq] nor [pci_disable_msix]; apart from the driver-data pointer,
    which [remove] leaves set, the device is as it was before [probe]. *)
Theorem probe_remove_legacy_round_trip K w :
  plat_enable_device K = 0 ->
  irq (w_pdev w) <> 0 ->
  intx_mask_supported (w_pdev w) = true ->
  plat_kzalloc_gdev K = true ->
  plat_uio_register K = 0 ->
  exists w1 w2,
    probe K w = Ok 0 w1 /\
    remove w1 = Ok tt w2 /\
    w_pdev w2 = with_drvdata true (w_pdev w) /\
    w_gdev w2 = None /\
    w_uio w2 = false /\
    w_irqs w2 = w_irqs w /\
    w_trace w2 = w_trace w ++ [Ev_pci_enable_device; Ev_uio_register_device;
                               Ev_uio_unregister_device;
                               Ev_pci_disable_device; Ev_kfree_gdev].
Proof.
  intros Hen Hirq Hmask Hkg Hreg.
  rewrite (probe_legacy_mode K w) by assumption.
  eexists _, _. split; [reflexivity|].
  erewrite remove_no_table; [| reflexivity | reflexivity | reflexivity].
  split; [reflexivity|]. simpl. split_and!; try reflexivity.
  - destruct (w_pdev w). unfold with_drvdata, with_enable_cnt. simpl.
    f_equal. lia.
  - now rewrite <- app_assoc.
Qed.

(** The witness: the device on legacy line 11 that supports masking. *)
Lemma probe_remove_legacy_round_trip_witness :
  exists w1 w2,
    probe Example.K (Example.unclaimed (Example.pdev_legacy false true))
      = Ok 0 w1 /\
    remove w1 = Ok tt w2 /\
    enable_cnt (w_pdev w2) = 0 /\ w_gdev w2 = None.
Proof.
  destruct (probe_remove_legacy_round_trip Example.K
              (Example.unclaimed (Example.pdev_legacy false true)))
    as (w1 & w2 & Hp & Hr & Hpdev & Hg & _);
    [reflexivity | simpl; lia | reflexivity | reflexivity | reflexivity |].
  exists w1, w2. split_and!; try assumption. now rewrite Hpdev.
Defined.

(** ** Teardown releases what is held, once *)

Lemma puts_app tr1 tr2 : puts (tr1 ++ tr2) = puts tr1 ++ puts tr2.
Proof. apply omap_app. Qed.

Lemma frees_app tr1 tr2 : frees (tr1 ++ tr2) = frees tr1 ++ frees tr2.
Proof. apply omap_app. Qed.

Lemma puts_table_teardown es : forall ss,
  length ss = length es -> puts (table_teardown es ss) = omap id ss.
Proof.
  induction es as [|e es IH]; intros [|s ss] Hlen; try discriminate;
    [reflexivity|].
  simpl. rewrite puts_app, IH by (simpl in Hlen; lia).
  now destruct s.
Qed.

Lemma frees_table_teardown es : forall ss,
  frees (table_teardown es ss) = bound_pairs es ss.
Proof.
  induction es as [|e es IH]; intros [|s ss]; try reflexivity.
  simpl. rewrite frees_app, IH. now destruct s.
Qed.

Lemma tally_release_table_teardown c es : forall ss,
  length ss = length es ->
  tally (is_release c) (table_teardown es ss) = tally (holds c) ss.
Proof.
  induction es as [|e es IH]; intros [|s ss] Hlen; try discriminate;
    [reflexivity|].
  simpl. rewrite tally_app, tally_teardown_release, IH
    by (simpl in Hlen; lia).
  reflexivity.
Qed.

Lemma tally_acquire_table_teardown K c es : forall ss,
  tally (is_acquire K c) (table_teardown es ss) = 0%nat.
Proof.
  induction es as [|e es IH]; intros [|s ss]; try reflexivity.
  simpl. now rewrite tally_app, tally_teardown_acquire, IH.
Qed.

(** X14.  [remove] releases exactly what the table holds: the handles it
    puts are the handles of the bound slots, each once, in slot order,
    and the interrupt paths it frees are those of the bound slots, each
    with the line and the handle of its slot.  Empty slots cause no call. *)
Theorem remove_releases_each_handle_once w g es :
  drvdata (w_pdev w) = true ->
  w_gdev w = Some g -> entries (msix_info g) = Some es ->
  nvecs (msix_info g) = Z.of_nat (length es) ->
  length (evts (msix_info g)) = length es ->
  exists w' calls,
    remove w = Ok tt w' /\
    w_trace w' = w_trace w ++ calls /\
    puts calls = omap id (evts (msix_info g)) /\
    frees calls = bound_pairs es (evts (msix_info g)) /\
    table_evts w' = [].
Proof.
  intros Hdd Hg Hes Hn Hlen.
  rewrite (remove_vector_table w g es) by assumption. cbv zeta.
  eexists _, _. split; [reflexivity|]. split; [reflexivity|].
  split_and!.
  - rewrite !puts_app, puts_table_teardown by assumption. simpl.
    now rewrite app_nil_r.
  - rewrite !frees_app, frees_table_teardown. simpl.
    now rewrite app_nil_r.
  - reflexivity.
Qed.

(** The witness: slots 0 and 2 bound to contexts 1 and 2. *)
Lemma remove_releases_each_handle_once_witness :
  exists w' calls,
    remove Example.w_bound02 = Ok tt w' /\
    w_trace w' = calls /\
    puts calls = [Ctx 1; Ctx 2] /\
    frees calls = [(40, Ctx 1); (42, Ctx 2)].
Proof.
  destruct (remove_releases_each_handle_once Example.w_bound02
              (Example.gdev_msix [Some (Ctx 1); None; Some (Ctx 2); None])
              Example.table)
    as (w' & calls & Hrun & Htr & Hputs & Hfrees & _);
    [reflexivity | reflexivity | reflexivity | reflexivity | reflexivity |].
  exists w', calls. split_and!; assumption.
Defined.

(** ** From [probe] to [remove] *)

(** What a call that returns leaves of the device. *)
Lemma map_msix_eventfd_device K fd vec w r w' :
  map_msix_eventfd K fd vec w = Ok r w' ->
  enable_cnt (w_pdev w') = enable_cnt (w_pdev w) /\
  msix_enabled (w_pdev w') = msix_enabled (w_pdev w) /\
  w_uio w' = w_uio w.
Proof.
  intros Hrun.
  destruct (map_msix_eventfd_returns_inv _ _ _ _ _ _ Hrun)
    as (g & Hg & [Hneg | [[Hfd Hge] | (Hfd & Hvec & es & e & s & Hes & He & Hs)]]).
  - rewrite (map_msix_eventfd_sentinel K fd vec w g) in Hrun by assumption.
    now inversion Hrun; subst w'.
  - rewrite (map_msix_eventfd_above K fd vec w g) in Hrun by assumption.
    now inversion Hrun; subst w'.
  - rewrite (map_msix_eventfd_in_range K fd vec w g es e s) in Hrun
      by assumption.
    cbv zeta in Hrun.
    destruct (plat_fdget K fd);
      [destruct (_ =? 0)|]; now inversion Hrun; subst w'.
Qed.

(** Nothing that can happen to a binding breaks it. *)
Lemma run_op_keeps_binding K c o w :
  binding_ok w -> refs_balanced K w ->
  op_index_nonneg c o = true ->
  exists w',
    run_op K c o w = Ok tt w' /\
    binding_ok w' /\ refs_balanced K w' /\
    enable_cnt (w_pdev w') = enable_cnt (w_pdev w).
Proof.
  intros Hok Hbal Hdom. destruct o as [cmd arg | | irqn]; simpl.
  - unfold bind, uio_msi_ioctl.
    destruct (Z.eqb_spec cmd c) as [->|Hne]; [|now eexists].
    destruct arg as [d|]; [|now eexists].
    destruct (map_msix_eventfd_keeps_ok K (data_fd d) (data_vector d) w Hok)
      as (r & w' & Hrun & Hok').
    { simpl in Hdom. rewrite Z.eqb_refl in Hdom. simpl in Hdom.
      apply orb_true_iff in Hdom. destruct Hdom; [left|right]; lia. }
    rewrite Hrun. exists w'. split; [reflexivity|]. split_and!.
    + assumption.
    + now apply (map_msix_eventfd_keeps_balance _ _ _ _ _ _ Hbal Hrun).
    + now apply (map_msix_eventfd_device _ _ _ _ _ _ Hrun).
  - destruct Hok as (Hdd & g & es & Hg & Hrest).
    unfold bind. rewrite (release_clears_master w g Hg).
    eexists. split; [reflexivity|]. split_and!.
    + split; [exact Hdd|]. exists g, es. exact (conj Hg Hrest).
    + intros x. specialize (Hbal x). unfold table_evts in *. simpl.
      rewrite !tally_app. simpl. lia.
    + reflexivity.
  - unfold bind, generic_handle_irq, uio_msix_handler, eventfd_signal.
    unfold_monad.
    destruct (w_irqs w !! irqn) as [d|]; [|now eexists].
    eexists. split; [reflexivity|]. split_and!.
    + exact Hok.
    + intros x. specialize (Hbal x). unfold table_evts in *. simpl.
      rewrite !tally_app. simpl. lia.
    + reflexivity.
Qed.

Lemma run_ops_keep_binding K c os : forall w,
  binding_ok w -> refs_balanced K w ->
  forallb (op_index_nonneg c) os = true ->
  exists w',
    run_ops K c os w = Ok tt w' /\
    binding_ok w' /\ refs_balanced K w' /\
    enable_cnt (w_pdev w') = enable_cnt (w_pdev w).
Proof.
  induction os as [|o os IH]; intros w Hok Hbal Hdom.
  - now exists w.
  - simpl in Hdom. apply andb_true_iff in Hdom. destruct Hdom as [Ho Hos].
    destruct (run_op_keeps_binding K c o w Hok Hbal Ho)
      as (w1 & Hrun1 & Hok1 & Hbal1 & Hcnt1).
    destruct (IH w1 Hok1 Hbal1 Hos) as (w2 & Hrun2 & Hok2 & Hbal2 & Hcnt2).
    exists w2. simpl. unfold bind. rewrite Hrun1.
    split_and!; try assumption. congruence.
Qed.

(** [remove] on a well-formed, balanced binding. *)
Lemma remove_leaves_nothing K w :
  binding_ok w -> refs_balanced K w ->
  exists w',
    remove w = Ok tt w' /\
    w_irqs w' = ∅ /\ w_gdev w' = None /\ w_uio w' = false /\
    enable_cnt (w_pdev w') = enable_cnt (w_pdev w) - 1 /\
    msix_enabled (w_pdev w') = false /\
    (forall x, tally (is_acquire K x) (w_trace w')
               = tally (is_release x) (w_trace w')).
Proof.
  intros (Hdd & g & es & Hg & Hes & Hn & Hlen & Hnd & Hown & Hreg) Hbal.
  rewrite (remove_vector_table w g es) by assumption. cbv zeta.
  eexists. split; [reflexivity|]. simpl. split_and!; try reflexivity.
  - rewrite !irqs_after_app.
    change (irq_effect (w_irqs w) Ev_uio_unregister_device) with (w_irqs w).
    now rewrite (teardown_clears_owned es _ _ Hown).
  - intros x. specialize (Hbal x). unfold table_evts in Hbal.
    rewrite Hg in Hbal.
    rewrite !tally_app. simpl.
    rewrite !tally_app, tally_release_table_teardown,
      tally_acquire_table_teardown by assumption.
    simpl. lia.
Qed.

(** X15.  A whole life of a binding in vector mode leaves nothing
    behind.  Let [probe] be granted everything, then let ioctls of the
    consumer (whatever the command, the descriptor and the platform's
    answers, but no negative index for a bind), closes of the device and
    interrupts follow in any number and any order, then let [remove] run.
    Every one of these calls returns.  At the end no interrupt action is
    registered, so no interrupt signals a handle any more; every
    reference taken by a lookup has been released, exactly once; the
    driver object is freed; the device is unregistered, vector delivery
    is disabled, and the bus-level enable count is what it was before
    [probe]. *)
Theorem life_cycle_leaves_nothing_behind K c os w :
  let N := plat_msix_vec_count K in
  plat_enable_device K = 0 ->
  irq (w_pdev w) = 0 ->
  plat_kzalloc_gdev K = true ->
  0 < N <= 2 ^ 16 ->
  plat_kzalloc K ((N * (sizeof_msix_entry + sizeof_eventfd_ctx_ptr)) mod 2 ^ 64)
    = true ->
  N <= plat_msix_avail K ->
  plat_uio_register K = 0 ->
  (forall i j, 0 <= i < N -> 0 <= j < N ->
     plat_msix_vector K i = plat_msix_vector K j -> i = j) ->
  w_irqs w = ∅ ->
  (forall x, tally (is_acquire K x) (w_trace w)
             = tally (is_release x) (w_trace w)) ->
  forallb (op_index_nonneg c) os = true ->
  exists w1 w2 w3,
    probe K w = Ok 0 w1 /\
    run_ops K c os w1 = Ok tt w2 /\
    remove w2 = Ok tt w3 /\
    w_irqs w3 = ∅ /\
    (forall irqn,
       generic_handle_irq uio_msix_handler irqn w3 = Ok IRQ_NONE w3) /\
    (forall x, tally (is_acquire K x) (w_trace w3)
               = tally (is_release x) (w_trace w3)) /\
    w_gdev w3 = None /\
    w_uio w3 = false /\
    msix_enabled (w_pdev w3) = false /\
    enable_cnt (w_pdev w3) = enable_cnt (w_pdev w).
Proof.
  intros N Hen Hirq Hkg HN Hk Hav Hreg Hinj Hempty Hbal0 Hdom.
  rewrite (probe_vector_mode K w) by (assumption || lia).
  cbv zeta. fold N. rewrite Hreg, Hempty. simpl.
  set (w1 := {| w_pdev := _ |}).
  assert (Hok1 : binding_ok w1) by now apply granted_binding_ok.
  assert (Hbal1 : refs_balanced K w1).
  { intros x. specialize (Hbal0 x). unfold w1, table_evts. simpl.
    rewrite !tally_app, tally_replicate_holds. simpl. lia. }
  destruct (run_ops_keep_binding K c os w1 Hok1 Hbal1 Hdom)
    as (w2 & Hrun2 & Hok2 & Hbal2 & Hcnt2).
  destruct (remove_leaves_nothing K w2 Hok2 Hbal2)
    as (w3 & Hrun3 & Hirqs3 & Hg3 & Hu3 & Hcnt3 & Hmsix3 & Hbal3).
  exists w1, w2, w3. split_and!; try assumption; try reflexivity.
  - intros irqn. now apply generic_handle_irq_no_action.
  - rewrite Hcnt3, Hcnt2. unfold w1. simpl. lia.
Qed.

(** The witness: the four-vector device through the session of
    [Scenario.session]. *)
Lemma life_cycle_leaves_nothing_behind_witness :
  exists w1 w2 w3,
    probe Example.K (Example.unclaimed Example.pdev_msix) = Ok 0 w1 /\
    run_ops Example.K Scenario.UIO_MSIX_DATA Scenario.session w1 = Ok tt w2 /\
    remove w2 = Ok tt w3 /\
    w_irqs w3 = ∅ /\
    w_gdev w3 = None /\
    enable_cnt (w_pdev w3) = 0.
Proof.
  destruct (life_cycle_leaves_nothing_behind Example.K Scenario.UIO_MSIX_DATA
              Scenario.session (Example.unclaimed Example.pdev_msix))
    as (w1 & w2 & w3 & Hp & Hops & Hrm & Hirqs & _ & _ & Hg & _ & _ & Hcnt);
    [reflexivity | reflexivity | reflexivity | simpl; lia | reflexivity
    | simpl; lia | reflexivity | simpl; intros; lia | reflexivity
    | intros; reflexivity | reflexivity |].
  exists w1, w2, w3. split_and!; assumption.
Defined.

(** The session of [Scenario.session], call by call: what the consumer is
    returned and what the kernel is asked. *)
Example scenario_session_trace :
  let w1 := Example.run (probe Example.K) (Example.unclaimed Example.pdev_msix) in
  let w2 := Example.run (run_ops Example.K Scenario.UIO_MSIX_DATA
                           Scenario.session) w1 in
  let w3 := Example.run remove w2 in
  table_evts w2 = [Some (Ctx 3); None; None; None] /\
  w_trace w3 =
    [Ev_pci_enable_device; Ev_pci_enable_msix_exact 4; Ev_uio_register_device;
     Ev_eventfd_ctx_fdget 3; Ev_request_irq 40 (Ctx 1) 0;
     Ev_eventfd_ctx_fdget 4; Ev_request_irq 42 (Ctx 2) 0;
     Ev_eventfd_signal (Ctx 1); Ev_eventfd_signal (Ctx 2);
     Ev_free_irq 40 (Ctx 1); Ev_eventfd_ctx_put (Ctx 1);
     Ev_eventfd_ctx_fdget 5; Ev_request_irq 40 (Ctx 3) 0;
     Ev_free_irq 42 (Ctx 2); Ev_eventfd_ctx_put (Ctx 2);
     Ev_eventfd_ctx_fdget 9;
     Ev_pci_disable_msi;
     Ev_pci_clear_master;
     Ev_uio_unregister_device;
     Ev_free_irq 40 (Ctx 3); Ev_eventfd_ctx_put (Ctx 3);
     Ev_pci_disable_msix; Ev_kfree_entries;
     Ev_pci_disable_device; Ev_kfree_gdev].
Proof. vm_compute. split; reflexivity. Qed.

(** ** The disable request and the binding without a table *)

(** X16.  With a negative descriptor [map_msix_eventfd] returns 0
    whatever the index, be it negative or past the table, and in either
    mode.  It reads no slot and makes one call, [pci_disable_msi]: the
    driver object with its table, the IRQ core's table and the MSI-X
    state of the device are exactly as before; only the MSI flag of the
    device is cleared. *)
Theorem sentinel_touches_no_slot K fd vec w g :
  fd < 0 -> w_gdev w = Some g ->
  exists w',
    map_msix_eventfd K fd vec w = Ok 0 w' /\
    w_trace w' = w_trace w ++ [Ev_pci_disable_msi] /\
    w_gdev w' = w_gdev w /\
    w_irqs w' = w_irqs w /\
    w_uio w' = w_uio w /\
    w_pdev w' = with_msi false (w_pdev w) /\
    msix_enabled (w_pdev w') = msix_enabled (w_pdev w).
Proof.
  intros Hfd Hg.
  rewrite (map_msix_eventfd_sentinel K fd vec w g) by assumption.
  eexists. split; [reflexivity|]. split_and!; reflexivity.
Qed.

(** The witness: descriptor -1 with index -3 on the four-vector device. *)
Lemma sentinel_touches_no_slot_witness :
  exists w',
    map_msix_eventfd Example.K (-1) (-3) Example.w_bound02 = Ok 0 w' /\
    w_gdev w' = w_gdev Example.w_bound02 /\
    w_irqs w' = w_irqs Example.w_bound02.
Proof.
  destruct (sentinel_touches_no_slot Example.K (-1) (-3) Example.w_bound02
              (Example.gdev_msix [Some (Ctx 1); None; Some (Ctx 2); None]))
    as (w' & Hrun & _ & Hg & Hirqs & _); [lia | reflexivity |].
  exists w'. split_and!; assumption.
Defined.

(** [probe] on a device without a legacy line whose vector count the
    platform rejects. *)
Lemma probe_vector_rejected K w :
  let N := plat_msix_vec_count K in
  plat_enable_device K = 0 ->
  irq (w_pdev w) = 0 ->
  plat_kzalloc_gdev K = true ->
  0 < N ->
  plat_kzalloc K ((N * (sizeof_msix_entry + sizeof_eventfd_ctx_ptr)) mod 2 ^ 64)
    = true ->
  plat_msix_avail K < N ->
  plat_uio_register K = 0 ->
  probe K w =
    Ok 0 {| w_pdev := with_drvdata true
                        (with_enable_cnt (enable_cnt (w_pdev w) + 1) (w_pdev w));
            w_gdev := Some
              {| info := {| name := "uio_pci_generic";
                            version := DRIVER_VERSION;
                            info_irq := 0; irq_flags := 0; handler := None;
                            info_release := Some Release_release;
                            ioctl := Some Ioctl_uio_msi_ioctl |};
                 msix_info := {| entries := None;
                                 evts := replicate (Z.to_nat N) None;
                                 nvecs := N |} |};
            w_irqs := w_irqs w;
            w_uio := true;
            w_trace := w_trace w ++ [Ev_pci_enable_device;
                                     Ev_pci_enable_msix_exact N;
                                     Ev_kfree_entries;
                                     Ev_uio_register_device] |}.
Proof.
  intros N Hen Hirq Hkg HN Hk Hav Hreg.
  destruct w as [p og t u tr]. destruct p as [pirq cnt msi msix bm cmd st ims dd].
  simpl in Hirq. subst pirq.
  unfold probe, pci_enable_device, pci_intx_mask_supported, kzalloc_gdev,
    upd_info.
  unfold_monad. rewrite Hen, Hkg. simpl.
  erewrite (pci_generic_init_msix_rejected K);
    [| reflexivity | exact HN | exact Hk | exact Hav]. fold N.
  unfold uio_register_device, pci_set_drvdata. unfold_monad.
  rewrite Hreg. simpl.
  f_equal. apply world_eq; simpl; try reflexivity.
  now rewrite <- !app_assoc.
Qed.

(** X17.  A rejected vector count leaves [nvecs] at the count that was
    asked for while the table pointer is reset to NULL, and [probe] binds
    the device all the same.  On that binding the range test still lets
    the indices below [nvecs] through: every bind of such an index
    dereferences the NULL table; only the indices at or above [nvecs] are
    rejected with -EINVAL.  [remove] on that binding returns, skipping the
    teardown of the table. *)
Theorem bind_after_rejected_allocation_faults K w :
  let N := plat_msix_vec_count K in
  plat_enable_device K = 0 ->
  irq (w_pdev w) = 0 ->
  plat_kzalloc_gdev K = true ->
  0 < N ->
  plat_kzalloc K ((N * (sizeof_msix_entry + sizeof_eventfd_ctx_ptr)) mod 2 ^ 64)
    = true ->
  plat_msix_avail K < N ->
  plat_uio_register K = 0 ->
  exists w',
    probe K w = Ok 0 w' /\
    table_nvecs w' = Some N /\
    table_entries w' = None /\
    (forall K' fd vec, 0 <= fd -> vec < N ->
       map_msix_eventfd K' fd vec w' = Oops NullDeref) /\
    (forall K' fd vec, 0 <= fd -> N <= vec ->
       map_msix_eventfd K' fd vec w' = Ok (- EINVAL) w') /\
    (exists w'',
       remove w' = Ok tt w'' /\
       w_trace w'' = w_trace w' ++ [Ev_uio_unregister_device;
                                    Ev_pci_disable_device; Ev_kfree_gdev] /\
       enable_cnt (w_pdev w'') = enable_cnt (w_pdev w)).
Proof.
  intros N Hen Hirq Hkg HN Hk Hav Hreg.
  rewrite (probe_vector_rejected K w) by assumption. fold N.
  eexists. split; [reflexivity|]. split_and!; try reflexivity.
  - intros K' fd vec Hfd Hvec. unfold map_msix_eventfd.
    destruct (Z.ltb_spec fd 0); [lia|].
    unfold entries_at. unfold_monad. simpl.
    destruct (Z.geb_spec vec N); [lia | reflexivity].
  - intros K' fd vec Hfd Hvec.
    eapply map_msix_eventfd_above; [exact Hfd | | reflexivity]. exact Hvec.
  - erewrite remove_no_table; [| reflexivity | reflexivity | reflexivity].
    eexists. split; [reflexivity|]. simpl. split; [reflexivity | lia].
Qed.

(** The witness: the four-vector device on the platform that can grant
    two vectors; a bind of index 0. *)
Lemma bind_after_rejected_allocation_faults_witness :
  exists w',
    probe Example.K_scarce (Example.unclaimed Example.pdev_msix) = Ok 0 w' /\
    map_msix_eventfd Example.K 3 0 w' = Oops NullDeref.
Proof.
  destruct (bind_after_rejected_allocation_faults Example.K_scarce
              (Example.unclaimed Example.pdev_msix))
    as (w' & Hrun & _ & _ & Hfault & _);
    [reflexivity | reflexivity | reflexivity | simpl; lia | reflexivity
    | simpl; lia | reflexivity |].
  exists w'. split; [assumption|]. apply Hfault; simpl; lia.
Defined.
